(** * World-map annotator: session state, map view and export

    A shallow embedding of the React application: the session component
    [App] (selection set, city markers, style values), the [MapView]
    component (geometry load, scene rebuild, zoom, hover and resize
    listeners, PNG export) and the [CountrySelector] component (data load,
    grouping by continent under the search text, the rendered blocks).

    React state is explicit: every handler is a function from the state it
    reads to the state it leaves, together with the effects it performs on
    the outside world (alerts, console messages, downloads).  An awaited
    promise is split into the step before the await and the step that runs
    when the promise settles; what the outside world answers is an argument
    of the second step. *)

From Stdlib Require Import QArith Qround Qabs.
From stdpp Require Import gmap strings list pretty sorting.

(** ** JavaScript values that cross the JSON boundary *)

Module Json.

#[local] Set Warnings "-register-all".

(** What [JSON.parse] can return.  Numbers are kept as exact rationals. *)
Inductive value : Type :=
| JNull
| JBool (b : bool)
| JNum (q : Q)
| JStr (s : string)
| JArr (items : list value)
| JObj (fields : list (string * value)).

(** Property read [v.k]: [None] stands for [undefined]. *)
Fixpoint assoc (k : string) (fields : list (string * value)) : option value :=
  match fields with
  | [] => None
  | (k', v) :: rest => if String.eqb k k' then Some v else assoc k rest
  end.

Definition get (k : string) (v : value) : option value :=
  match v with
  | JObj fields => assoc k fields
  | _ => None
  end.

(** [typeof v.k === "number"]: the field is present and is a number. *)
Definition is_number_field (k : string) (v : value) : bool :=
  match get k v with
  | Some (JNum _) => true
  | _ => false
  end.

Definition number_field (k : string) (v : value) : option Q :=
  match get k v with
  | Some (JNum q) => Some q
  | _ => None
  end.

End Json.

(** ** The session component [App] *)

Module App.

(** [interface City]: the interface is erased at run time, and the markers
    held in the [cities] state are the values [JSON.parse] returned. *)
Definition City : Type := Json.value.

(** A marker as the [City] interface describes it: [lat] and [lng] present
    and numeric. *)
Definition well_formed_city (c : City) : bool :=
  Json.is_number_field "lat" c && Json.is_number_field "lng" c.


(** The nine [useState] cells of the component. *)
Record State : Type := mkState {
  selectedCountryIds : gset string;
  cities : list City;
  cityInput : string;
  isLocating : bool;
  countryColor : string;
  cityColor : string;
  textColor : string;
  fontFamily : string;
  fontSize : Q
}.

Definition initial : State :=
  {| selectedCountryIds := ∅;
     cities := [];
     cityInput := EmptyString;
     isLocating := false;
     countryColor := "#f97316";
     cityColor := "#ef4444";
     textColor := "#1e293b";
     fontFamily := "sans-serif";
     fontSize := 12 |}.

(** The state setters. *)
Definition setSelectedCountryIds (f : gset string -> gset string) (st : State) : State :=
  mkState (f (selectedCountryIds st)) (cities st) (cityInput st) (isLocating st)
          (countryColor st) (cityColor st) (textColor st) (fontFamily st) (fontSize st).

Definition setCities (f : list City -> list City) (st : State) : State :=
  mkState (selectedCountryIds st) (f (cities st)) (cityInput st) (isLocating st)
          (countryColor st) (cityColor st) (textColor st) (fontFamily st) (fontSize st).

Definition setCityInput (s : string) (st : State) : State :=
  mkState (selectedCountryIds st) (cities st) s (isLocating st)
          (countryColor st) (cityColor st) (textColor st) (fontFamily st) (fontSize st).

Definition setIsLocating (b : bool) (st : State) : State :=
  mkState (selectedCountryIds st) (cities st) (cityInput st) b
          (countryColor st) (cityColor st) (textColor st) (fontFamily st) (fontSize st).

Definition setCountryColor (c : string) (st : State) : State :=
  mkState (selectedCountryIds st) (cities st) (cityInput st) (isLocating st)
          c (cityColor st) (textColor st) (fontFamily st) (fontSize st).

Definition setCityColor (c : string) (st : State) : State :=
  mkState (selectedCountryIds st) (cities st) (cityInput st) (isLocating st)
          (countryColor st) c (textColor st) (fontFamily st) (fontSize st).

Definition setTextColor (c : string) (st : State) : State :=
  mkState (selectedCountryIds st) (cities st) (cityInput st) (isLocating st)
          (countryColor st) (cityColor st) c (fontFamily st) (fontSize st).

Definition setFontFamily (f : string) (st : State) : State :=
  mkState (selectedCountryIds st) (cities st) (cityInput st) (isLocating st)
          (countryColor st) (cityColor st) (textColor st) f (fontSize st).

Definition setFontSize (n : Q) (st : State) : State :=
  mkState (selectedCountryIds st) (cities st) (cityInput st) (isLocating st)
          (countryColor st) (cityColor st) (textColor st) (fontFamily st) n.

(** [handleToggleCountry]: the updater passed to [setSelectedCountryIds]
    copies the set, then deletes the id if present and adds it otherwise. *)
Definition toggle (id : string) (prev : gset string) : gset string :=
  if decide (id ∈ prev) then prev ∖ {[ id ]} else prev ∪ {[ id ]}.

Definition handleToggleCountry (id : string) (st : State) : State :=
  setSelectedCountryIds (toggle id) st.

(** [prev.filter((_, i) => i !== index)], the callback seeing each element
    with its position. *)
Fixpoint filter_index {A : Type} (keep : A -> nat -> bool) (i : nat) (l : list A) : list A :=
  match l with
  | [] => []
  | x :: rest =>
      if keep x i then x :: filter_index keep (S i) rest
      else filter_index keep (S i) rest
  end.

Definition removeCity (index : nat) (st : State) : State :=
  setCities (filter_index (fun _ i => negb (Nat.eqb i index)) 0) st.

(** [cityInput.trim()] is empty exactly when the text holds nothing but
    white space and line terminators.  Text is held as its UTF-8 bytes:
    U+0009..U+000D, U+0020, U+00A0, U+1680, U+2000..U+200A, U+2028, U+2029,
    U+202F, U+205F, U+3000 and U+FEFF are the characters [trim] removes. *)
Fixpoint blank_bytes (bs : list N) : bool :=
  match bs with
  | [] => true
  | (9 | 10 | 11 | 12 | 13 | 32)%N :: rest => blank_bytes rest
  | 194%N :: 160%N :: rest => blank_bytes rest
  | 225%N :: 154%N :: 128%N :: rest => blank_bytes rest
  | 226%N :: 128%N :: b :: rest =>
      if ((128 <=? b) && (b <=? 138) || (b =? 168) || (b =? 169) || (b =? 175))%N
      then blank_bytes rest else false
  | 226%N :: 129%N :: 159%N :: rest => blank_bytes rest
  | 227%N :: 128%N :: 128%N :: rest => blank_bytes rest
  | 239%N :: 187%N :: 191%N :: rest => blank_bytes rest
  | _ => false
  end.

Definition trim_is_empty (s : string) : bool :=
  blank_bytes (map Ascii.N_of_ascii (String.list_ascii_of_string s)).

(** What a handler does to the world outside the component state. *)
Inductive Effect : Type :=
| PreventDefault
| GenerateContent (contents : string)
| ConsoleError (label err : string)
| Alert (message : string).

Definition quote : string := String (Ascii.ascii_of_nat 34) EmptyString.

(** The [contents] template of the request. *)
Definition contents_of (input : string) : string :=
  "查找 " +:+ quote +:+ input +:+ quote +:+
  " 的经纬度坐标。如果输入包含备注信息（例如：上海 - 出差），请将城市名和备注分开。".

Definition failure_message : string :=
  "无法解析。请尝试格式: '城市名' 或 '城市名 - 备注'".

(** How the [try] block of [handleAddCity] ends: the client constructor or
    the awaited [generateContent] call throws, [JSON.parse(response.text)]
    throws, or [JSON.parse] returns a value. *)
Inductive Resolution : Type :=
| ServiceError (err : string)
| Unparsable (err : string)
| Parsed (result : Json.value).

Definition failed (r : Resolution) : Prop :=
  match r with
  | Parsed _ => False
  | _ => True
  end.

(** [handleAddCity] up to the [await]: the guard, then [setIsLocating(true)]
    and the request.  The boolean tells whether a request was sent. *)
Definition handleAddCity_submit (st : State) : State * list Effect * bool :=
  if trim_is_empty (cityInput st) || isLocating st
  then (st, [PreventDefault], false)
  else (setIsLocating true st,
        [PreventDefault; GenerateContent (contents_of (cityInput st))], true).

(** [handleAddCity] from the point where the awaited call settles, run on
    the state the component has by then: the rest of the [try] block or the
    [catch] block, then the [finally] block. *)
Definition handleAddCity_settle (r : Resolution) (st : State) : State * list Effect :=
  match r with
  | Parsed result =>
      (setIsLocating false
         (setCityInput EmptyString (setCities (fun prev => prev ++ [result]) st)),
       [])
  | ServiceError err | Unparsable err =>
      (setIsLocating false st,
       [ConsoleError "定位失败:" err; Alert failure_message])
  end.

(** The handler with nothing else happening during the await. *)
Definition handleAddCity (r : Resolution) (st : State) : State * list Effect :=
  match handleAddCity_submit st with
  | (st1, eff1, true) =>
      let (st2, eff2) := handleAddCity_settle r st1 in (st2, eff1 ++ eff2)
  | (st1, eff1, false) => (st1, eff1)
  end.

(** The handler of the clear-all button:
    [setSelectedCountryIds(new Set()); setCities([])]. *)
Definition clearAll (st : State) : State :=
  setCities (fun _ => []) (setSelectedCountryIds (fun _ => ∅) st).

(** The five setters behind the style controls. *)
Inductive StyleChange : Type :=
| CountryColor (c : string)
| CityColor (c : string)
| TextColor (c : string)
| FontFamily (f : string)
| FontSize (n : Q).

Definition applyStyle (ev : StyleChange) (st : State) : State :=
  match ev with
  | CountryColor c => setCountryColor c st
  | CityColor c => setCityColor c st
  | TextColor c => setTextColor c st
  | FontFamily f => setFontFamily f st
  | FontSize n => setFontSize n st
  end.

End App.

(** ** The parts of d3 the map view calls *)

Module D3.

#[local] Open Scope Q_scope.

(** [Math.PI], the double nearest to the circle constant, as the exact
    rational it is.  Arithmetic below is exact rational arithmetic. *)
Definition pi : Q := 884279719003555 # 281474976710656.
Definition tau : Q := pi * 2.
Definition radians : Q := pi / 180.

(** [Math.round]: the nearest integer, halves upwards. *)
Definition round (x : Q) : Z := Qfloor (x + (1 # 2)).

(** The rotation of a projection whose [rotate] was never set: a longitude
    beyond half a turn is brought back by whole turns. *)
Definition rotationIdentity (lambda phi : Q) : Q * Q :=
  (if negb (Qle_bool (Qabs lambda) pi)
   then lambda - inject_Z (round (lambda / tau)) * tau
   else lambda,
   phi).

Record Projection : Type := mkProjection {
  scale : Q;
  translate : Q * Q
}.

(** [d3.geoEquirectangular().scale(k).translate([tx, ty])] applied to
    [[lng, lat]] in degrees: the raw projection is the identity on
    (longitude, latitude) in radians, x grows with longitude from [tx] and y
    falls with latitude from [ty]. *)
Definition geoEquirectangular (p : Projection) (point : Q * Q) : Q * Q :=
  let '(lambda, phi) := rotationIdentity (fst point * radians) (snd point * radians) in
  (fst (translate p) + scale p * lambda, snd (translate p) - scale p * phi).

(** The transform of [d3.zoom]: scale [k], then translation [(x, y)]. *)
Record ZoomTransform : Type := mkZoom {
  k : Q;
  x : Q;
  y : Q
}.

Definition zoomIdentity : ZoomTransform := mkZoom 1 0 0.

End D3.

(** ** [types.ts] and the two fetched documents *)

Module Types.

(** Polygon or multi-polygon coordinates. *)
Definition Geometry : Type := list (list (list (Q * Q))).

(** A country of the atlas, as [topojson.feature] returns it and as the
    [geometries] array lists it.  [name] is [properties.name].  The atlas
    leaves the id of a few territories out: [None] is [undefined]. *)
Record MapFeature : Type := mkFeature {
  type : string;
  id : option string;
  name : string;
  geometry : Geometry
}.

(** A record of the country metadata document: [name.common],
    [name.official], [translations?.zho?.common],
    [name?.nativeName?.zho?.common] and [region]. *)
Record Meta : Type := mkMeta {
  common : string;
  official : string;
  zho_common : option string;
  native_zho_common : option string;
  region : option string
}.

(** [String(f.id)]. *)
Definition String_id (f : MapFeature) : string :=
  match id f with
  | Some s => s
  | None => "undefined"
  end.

(** [metaData.find(m => m.name.common === englishName ||
    m.name.official === englishName)]. *)
Definition find_meta (metaData : list Meta) (englishName : string) : option Meta :=
  List.find (fun m => String.eqb (common m) englishName
                      || String.eqb (official m) englishName) metaData.

(** [a || b] for a string or [undefined] on the left: an absent or empty
    string gives the right-hand side. *)
Definition or_else (a : option string) (b : string) : string :=
  match a with
  | Some EmptyString | None => b
  | Some s => s
  end.

(** A feature that denotes Antarctica: by its id or by its name. *)
Definition denotes_antarctica (f : MapFeature) : Prop :=
  id f = Some "010" \/ name f = "Antarctica".

(** The filter both components apply to the atlas:
    [f.id !== "010" && f.properties.name !== "Antarctica"]. *)
Definition not_antarctica (f : MapFeature) : bool :=
  negb (bool_decide (id f = Some "010")) && negb (String.eqb (name f) "Antarctica").

End Types.

(** ** The map component [MapView] *)

Module MapView.

#[local] Open Scope Q_scope.

Definition num (n : N) : Q := inject_Z (Z.of_N n).

Record Config : Type := mkConfig {
  countryColor : string;
  cityPointColor : string;
  textColor : string;
  fontFamily : string;
  fontSize : Q
}.

(** [MapViewProps] without the click callback, which the session supplies. *)
Record Props : Type := mkProps {
  selectedCountryIds : gset string;
  cities : list App.City;
  config : Config
}.

(** *** The scene under the [svg] element *)

Record Rect : Type := mkRect {
  rect_width : Q;
  rect_height : Q;
  rect_x : Q;
  rect_y : Q;
  rect_fill : string
}.

(** A [path.country]: the feature bound to it and its fill.  Its outline is
    the feature's geometry under the projection of the group. *)
Record CountryPath : Type := mkCountryPath {
  country_datum : Types.MapFeature;
  country_fill : string
}.

(** A [g.city-label]: the marker bound to it, the point its circle is
    centred on, and the style values used.  The point is given where both
    coordinates of the marker are numbers; for other markers JavaScript's
    conversions decide the attributes, and the point is left out. *)
Record CityLabel : Type := mkCityLabel {
  city_datum : App.City;
  city_point : option (Q * Q);
  circle_fill : string;
  text_fill : string;
  text_font_family : string;
  text_font_size : Q
}.

(** The single [g] the render effect appends. *)
Record Group : Type := mkGroup {
  g_transform : option D3.ZoomTransform;
  g_projection : D3.Projection;
  g_background : Rect;
  g_countries : list CountryPath;
  g_cities : list CityLabel
}.

(** The [svg] element: its [width] and [height] attributes, what it
    contains, the transform [d3.zoom] keeps on the node ([d3.zoomTransform]
    reads it), and the size [getBoundingClientRect] reports. *)
Record SvgElement : Type := mkSvg {
  svg_width : option N;
  svg_height : option N;
  svg_content : option Group;
  svg_zoom : option D3.ZoomTransform;
  svg_rect : Q * Q
}.

Record Container : Type := mkContainer {
  clientWidth : N;
  clientHeight : N
}.

(** The component: two state cells, two refs, and whether the resize
    listener of the last effect run is installed. *)
Record State : Type := mkState {
  worldData : option (list Types.MapFeature);
  nameMap : gmap string string;
  svgRef : option SvgElement;
  containerRef : option Container;
  resizeListener : bool
}.

(** The component once mounted, before the two fetches have answered. *)
Definition mounted (rect : Q * Q) (c : Container) : State :=
  {| worldData := None;
     nameMap := ∅;
     svgRef := Some (mkSvg None None None None rect);
     containerRef := Some c;
     resizeListener := false |}.

(** *** The data-load effect *)

(** The body of the [.then] of the data-load effect, with
    [features = feature(atlasData, atlasData.objects.countries).features]. *)
Definition load_features (features : list Types.MapFeature) : list Types.MapFeature :=
  List.filter Types.not_antarctica features.

Definition load_mapping (metaData : list Types.Meta) (features : list Types.MapFeature)
  : gmap string string :=
  foldl (fun mapping f =>
           let englishName := Types.name f in
           let meta := Types.find_meta metaData englishName in
           <[ Types.String_id f :=
                Types.or_else (meta ≫= Types.zho_common) englishName ]> mapping)
        ∅ features.


Definition dataLoaded (features : list Types.MapFeature) (metaData : list Types.Meta)
  (st : State) : State :=
  let countries := load_features features in
  {| worldData := Some countries;
     nameMap := load_mapping metaData countries;
     svgRef := svgRef st;
     containerRef := containerRef st;
     resizeListener := resizeListener st |}.

(** *** The render effect *)

(** The projection of the render effect for a container of the given size.
    The code computes in binary64 and writes [0.1]; here the arithmetic is
    exact and the factor is 1/10, so what is said of the order of two
    results carries over to the code (rounding is monotone), and what is
    said of exact values does not. *)
Definition projection (width height : N) : D3.Projection :=
  {| D3.scale := num width / (2 * D3.pi);
     D3.translate := (num width / 2, num height / 2 + num height * (1 # 10)) |}.

Definition project (width height : N) (lng lat : Q) : Q * Q :=
  D3.geoEquirectangular (projection width height) (lng, lat).

Definition background (width height : N) : Rect :=
  {| rect_width := num width * 5;
     rect_height := num height * 5;
     rect_x := - num width * 2;
     rect_y := - num height * 2;
     rect_fill := "#ffffff" |}.

Definition country_path (p : Props) (d : Types.MapFeature) : CountryPath :=
  {| country_datum := d;
     country_fill :=
       if decide (Types.String_id d ∈ selectedCountryIds p)
       then countryColor (config p) else "#e2e8f0" |}.

(** The label built for one marker.  It describes the code for a marker
    that is [App.readable]; for [null] the code throws on [d.lng] and no
    label, nor anything after it, is drawn. *)
Definition city_label (width height : N) (p : Props) (d : App.City) : CityLabel :=
  {| city_datum := d;
     city_point :=
       match Json.number_field "lng" d, Json.number_field "lat" d with
       | Some lng, Some lat => Some (project width height lng lat)
       | _, _ => None
       end;
     circle_fill := cityPointColor (config p);
     text_fill := textColor (config p);
     text_font_family := fontFamily (config p);
     text_font_size := fontSize (config p) |}.

(** [zoom(selection)] sets the node's transform to the identity only where
    the node has none yet. *)
Definition call_zoom (current : option D3.ZoomTransform) : option D3.ZoomTransform :=
  match current with
  | Some t => Some t
  | None => Some D3.zoomIdentity
  end.

(** The render effect: nothing without data or refs; otherwise the size
    attributes are set, everything under the [svg] is removed, and a new
    group is appended and filled. *)
Definition renderEffect (p : Props) (st : State) : State :=
  match worldData st, svgRef st, containerRef st with
  | Some world, Some svg, Some container =>
      let width := clientWidth container in
      let height := clientHeight container in
      let g :=
        {| g_transform := None;
           g_projection := projection width height;
           g_background := background width height;
           g_countries := map (country_path p) world;
           g_cities := map (city_label width height p) (cities p) |} in
      {| worldData := worldData st;
         nameMap := nameMap st;
         svgRef := Some {| svg_width := Some width;
                           svg_height := Some height;
                           svg_content := Some g;
                           svg_zoom := call_zoom (svg_zoom svg);
                           svg_rect := svg_rect svg |};
         containerRef := containerRef st;
         resizeListener := true |}
  | _, _, _ => st
  end.

(** The [zoom] listener, [g.attr('transform', event.transform)], run after
    d3 has stored [event.transform] on the node.  This is the listener of
    the latest run of the render effect, whose group is the one drawn; see
    [zoomed_detached] for the listener of an earlier run. *)
Definition zoomed (t : D3.ZoomTransform) (st : State) : State :=
  match svgRef st with
  | Some svg =>
      match svg_content svg with
      | Some g =>
          {| worldData := worldData st;
             nameMap := nameMap st;
             svgRef := Some {| svg_width := svg_width svg;
                               svg_height := svg_height svg;
                               svg_content :=
                                 Some {| g_transform := Some t;
                                         g_projection := g_projection g;
                                         g_background := g_background g;
                                         g_countries := g_countries g;
                                         g_cities := g_cities g |};
                               svg_zoom := Some t;
                               svg_rect := svg_rect svg |};
             containerRef := containerRef st;
             resizeListener := resizeListener st |}
      | None => st
      end
  | None => st
  end.

(** The [zoom] listener of an earlier run of the render effect, reached by
    a gesture that began before a re-render and goes on after it: d3 stores
    the transform on the node, and the listener writes it to the group of
    its own run, which the re-render has removed, so nothing drawn
    changes. *)
Definition zoomed_detached (t : D3.ZoomTransform) (st : State) : State :=
  match svgRef st with
  | Some svg =>
      {| worldData := worldData st;
         nameMap := nameMap st;
         svgRef := Some {| svg_width := svg_width svg;
                           svg_height := svg_height svg;
                           svg_content := svg_content svg;
                           svg_zoom := Some t;
                           svg_rect := svg_rect svg |};
         containerRef := containerRef st;
         resizeListener := resizeListener st |}
  | None => st
  end.

(** A window resize: the layout gives the container and the [svg] new
    sizes, and [handleResize], where installed, copies the container's size
    to the [svg] attributes. *)
Definition resized (c : Container) (rect : Q * Q) (st : State) : State :=
  {| worldData := worldData st;
     nameMap := nameMap st;
     svgRef :=
       match svgRef st with
       | Some svg =>
           let handled :=
             resizeListener st && bool_decide (is_Some (containerRef st)) in
           Some {| svg_width := if handled then Some (clientWidth c)
                                else svg_width svg;
                   svg_height := if handled then Some (clientHeight c)
                                 else svg_height svg;
                   svg_content := svg_content svg;
                   svg_zoom := svg_zoom svg;
                   svg_rect := rect |}
       | None => None
       end;
     containerRef := match containerRef st with Some _ => Some c | None => None end;
     resizeListener := resizeListener st |}.

(** What can happen to a mounted map view. *)
Inductive Event : Type :=
| DataLoaded (features : list Types.MapFeature) (metaData : list Types.Meta)
| Render (p : Props)
| Zoomed (t : D3.ZoomTransform)
| Resized (c : Container) (rect : Q * Q).

Definition step (e : Event) (st : State) : State :=
  match e with
  | DataLoaded features metaData => dataLoaded features metaData st
  | Render p => renderEffect p st
  | Zoomed t => zoomed t st
  | Resized c rect => resized c rect st
  end.

Definition run (events : list Event) (st : State) : State :=
  foldl (fun st e => step e st) st events.

(** The transform d3 holds for the view, [d3.zoomTransform(svg)]. *)
Definition zoomTransform (st : State) : D3.ZoomTransform :=
  match svgRef st with
  | Some {| svg_zoom := Some t |} => t
  | _ => D3.zoomIdentity
  end.

(** The transform the drawn group carries; a group without the attribute
    is drawn untransformed. *)
Definition groupTransform (st : State) : D3.ZoomTransform :=
  match svgRef st with
  | Some {| svg_content := Some {| g_transform := Some t |} |} => t
  | _ => D3.zoomIdentity
  end.

(** The features the scene draws and listens for clicks on. *)
Definition drawn_features (st : State) : list Types.MapFeature :=
  match svgRef st with
  | Some {| svg_content := Some g |} => map country_datum (g_countries g)
  | _ => []
  end.

(** The invariant of the map view: neither the feature index nor the drawn
    scene holds a feature that denotes Antarctica. *)
Definition antarctica_free (st : State) : Prop :=
  (forall fs f, worldData st = Some fs -> In f fs ->
                ~ Types.denotes_antarctica f)
  /\ (forall f, In f (drawn_features st) -> ~ Types.denotes_antarctica f).

(** *** [exportToPng] *)

(** Assigning a number to [canvas.width] or [canvas.height] (an
    [unsigned long]): the fraction is dropped and the result taken modulo
    2^32. *)
Definition to_unsigned_long (q : Q) : Z :=
  (Z.quot (Qnum q) (Z.pos (Qden q)) mod 2 ^ 32)%Z.

(** The value the canvas then takes: an [unsigned long] attribute that is
    reflected keeps a value up to 2147483647 and takes its default for a
    larger one; the default is 300 for the width and 150 for the height. *)
Definition set_canvas_size (default : Z) (q : Q) : Z :=
  let v := to_unsigned_long q in
  if (v <=? 2147483647)%Z then v else default.

(** What is painted on the canvas. *)
Inductive DrawOp : Type :=
| FillRect (fillStyle : string) (x y w h : Z)
| DrawImage (image : SvgElement) (dx dy dw dh : Z).

(** The export between the click and the image's [load] event: the
    serialised [svg] handed to the image, the canvas and whether it gave a
    2d context. *)
Record ExportJob : Type := mkJob {
  svgData : SvgElement;
  canvas_width : Z;
  canvas_height : Z;
  ctx : bool
}.

(** The file offered for download: its name, and the PNG encoding of the
    canvas, given by the canvas size and what was painted on it in order. *)
Record Download : Type := mkDownload {
  download : string;
  png_width : Z;
  png_height : Z;
  png_painted : list DrawOp
}.

Definition scale : Q := 2.

(** [exportToPng] up to [img.src = url].  [has_ctx] tells whether
    [canvas.getContext('2d')] returned a context. *)
Definition exportToPng (has_ctx : bool) (st : State) : option ExportJob :=
  match svgRef st with
  | None => None
  | Some svg =>
      let svgSize := svg_rect svg in
      Some {| svgData := svg;
              canvas_width := set_canvas_size 300 (fst svgSize * scale);
              canvas_height := set_canvas_size 150 (snd svgSize * scale);
              ctx := has_ctx |}
  end.

(** [img.onload], with [now] the value of [new Date().getTime()]. *)
Definition img_onload (now : Z) (job : ExportJob) : option Download :=
  if ctx job then
    Some {| download := "world-travel-map-" +:+ pretty now +:+ ".png";
            png_width := canvas_width job;
            png_height := canvas_height job;
            png_painted :=
              [ FillRect "white" 0 0 (canvas_width job) (canvas_height job);
                DrawImage (svgData job) 0 0 (canvas_width job) (canvas_height job) ] |}
  else None.

(** *** The hover listeners of a country path *)

(** The tooltip [div]: the inline [display], [left] and [top] styles (the
    last two in pixels) and its text.  [None] for [display] is the element
    as rendered, hidden by its class. *)
Record Tooltip : Type := mkTooltip {
  display : option string;
  left : Q;
  top : Q;
  innerText : string
}.

(** [nameMap[d.id] || d.properties.name]. *)
Definition tooltip_text (names : gmap string string) (d : Types.MapFeature) : string :=
  Types.or_else (names !! Types.String_id d) (Types.name d).


(** The [mouseleave] listener. *)
Definition mouseleave (tip : option Tooltip) : Q * option Tooltip :=
  (1,
   match tip with
   | Some t => Some {| display := Some "none";
                       left := left t;
                       top := top t;
                       innerText := innerText t |}
   | None => None
   end).

(** The country paths and the markers of the city labels in the scene. *)
Definition drawn_paths (st : State) : list CountryPath :=
  match svgRef st with
  | Some {| svg_content := Some g |} => g_countries g
  | _ => []
  end.

Definition drawn_cities (st : State) : list App.City :=
  match svgRef st with
  | Some {| svg_content := Some g |} => map city_datum (g_cities g)
  | _ => []
  end.

(** Where a scene is drawn, the size attributes of the [svg] are the
    container's client size and the resize listener is installed. *)
Definition size_in_sync (st : State) : Prop :=
  match svgRef st with
  | Some {| svg_content := Some _; svg_width := w; svg_height := h |} =>
      resizeListener st = true
      /\ exists c, containerRef st = Some c
                   /\ w = Some (clientWidth c) /\ h = Some (clientHeight c)
  | _ => True
  end.

End MapView.

(** ** The data-load effect of [CountrySelector] *)

Module CountrySelector.

(** [CountryData & { continent: string }]. *)
Record Country : Type := mkCountry {
  id : string;
  name : string;
  continent : string
}.

(** The callback of [.map] in the data-load effect. *)
Definition entry (metaData : list Types.Meta) (g : Types.MapFeature) : Country :=
  let englishName := Types.name g in
  let meta := Types.find_meta metaData englishName in
  let chineseName :=
    Types.or_else (meta ≫= Types.zho_common)
      (Types.or_else (meta ≫= Types.native_zho_common) englishName) in
  {| id := Types.String_id g;
     name := chineseName;
     continent := Types.or_else (meta ≫= Types.region) "Other" |}.

Section Sorted.

(** [Array.prototype.sort] with the [localeCompare(_, 'zh-Hans-CN')]
    comparison: the collation is the browser's, so the sort is a parameter;
    it rearranges the array and nothing else. *)
Variable sort : list Country -> list Country.
Hypothesis sort_permutes : forall l, sort l ≡ₚ l.

(** The list handed to [setCountries], with
    [geometries = atlasData.objects.countries.geometries]. *)
Definition loaded_list (geometries : list Types.MapFeature) (metaData : list Types.Meta)
  : list Country :=
  sort (map (entry metaData) (List.filter Types.not_antarctica geometries)).

End Sorted.

(** [CONTINENT_ZH]. *)
Definition CONTINENT_ZH (continent : string) : option string :=
  if String.eqb continent "Africa" then Some "非洲"
  else if String.eqb continent "Americas" then Some "美洲"
  else if String.eqb continent "Asia" then Some "亚洲"
  else if String.eqb continent "Europe" then Some "欧洲"
  else if String.eqb continent "Oceania" then Some "大洋洲"
  else if String.eqb continent "Other" then Some "其他"
  else None.

(** [hay.includes(needle)]. *)
Fixpoint includes (hay needle : string) : bool :=
  String.prefix needle hay
  || match hay with
     | EmptyString => false
     | String _ rest => includes rest needle
     end.

(** The initial value of [expandedContinents], and [toggleContinent]. *)
Definition initial_expanded : gset string := {[ "Asia" ]}.

Definition toggleContinent (continent : string) (prev : gset string) : gset string :=
  if decide (continent ∈ prev) then prev ∖ {[ continent ]} else prev ∪ {[ continent ]}.

Section Grouped.

(** [String.prototype.toLowerCase], left to the browser. *)
Variable toLowerCase : string -> string.

(** The test of the search box on one country. *)
Definition matches (search : string) (c : Country) : bool :=
  String.eqb search EmptyString
  || includes (toLowerCase (name c)) (toLowerCase search).

(** The body of [countries.forEach] in [groupedCountries]: the group of the
    continent is created if it is not there, then the country is pushed to
    it if it passes the search.  The groups object is read at its own keys
    only: a continent named like a property every object inherits is not
    covered. *)
Definition add_country (search : string) (groups : gmap string (list Country))
  (c : Country) : gmap string (list Country) :=
  let continentKey := continent c in
  let groups1 :=
    match groups !! continentKey with
    | None => <[ continentKey := [] ]> groups
    | Some _ => groups
    end in
  if matches search c
  then <[ continentKey := default [] (groups1 !! continentKey) ++ [c] ]> groups1
  else groups1.

(** The countries of one continent that pass the search, in list order. *)
Definition shown_in (k search : string) (countries : list Country) : list Country :=
  List.filter (fun c => String.eqb (continent c) k && matches search c) countries.

Definition groupedCountries (countries : list Country) (search : string)
  : gmap string (list Country) :=
  foldl (add_country search) ∅ countries.

(** [Object.keys(groupedCountries).sort()]: the sort is the default one of
    the engine, a parameter here. *)
Variable sortKeys : list string -> list string.

Definition continents (countries : list Country) (search : string) : list string :=
  sortKeys (elements (dom (groupedCountries countries search))).


(** One continent block as rendered: its label, the number on its badge,
    whether it is open, and the rows shown with their selected mark. *)
Record Block : Type := mkBlock {
  block_key : string;
  block_label : string;
  block_count : nat;
  block_expanded : bool;
  block_rows : list (Country * bool)
}.

(** The callback of [continents.map]: nothing for a continent whose list
    is empty. *)
Definition block_of (countries : list Country) (search : string)
  (expandedContinents selectedIds : gset string) (continent : string) : option Block :=
  let continentCountries :=
    default [] (groupedCountries countries search !! continent) in
  match continentCountries with
  | [] => None
  | _ =>
      let isExpanded := bool_decide (continent ∈ expandedContinents) in
      Some {| block_key := continent;
              block_label := Types.or_else (CONTINENT_ZH continent) continent;
              block_count := length continentCountries;
              block_expanded := isExpanded;
              block_rows :=
                if isExpanded
                then map (fun country =>
                            (country, bool_decide (id country ∈ selectedIds)))
                         continentCountries
                else [] |}
  end.

Definition blocks (countries : list Country) (search : string)
  (expandedContinents selectedIds : gset string) : list Block :=
  omap (block_of countries search expandedContinents selectedIds)
       (continents countries search).

End Grouped.

End CountrySelector.

(** ** The session: [App] with its [MapView] *)

Module Session.

Record State : Type := mkSession {
  app : App.State;
  view : MapView.State
}.

(** The props [App] passes to [MapView] on a render. *)
Definition props_of (st : App.State) : MapView.Props :=
  {| MapView.selectedCountryIds := App.selectedCountryIds st;
     MapView.cities := App.cities st;
     MapView.config :=
       {| MapView.countryColor := App.countryColor st;
          MapView.cityPointColor := App.cityColor st;
          MapView.textColor := App.textColor st;
          MapView.fontFamily := App.fontFamily st;
          MapView.fontSize := App.fontSize st |} |}.

(** A render of [App] after a state change: the [config] object is new, so
    the render effect of [MapView] runs with the current props. *)
Definition rerender (s : State) : State :=
  {| app := app s;
     view := MapView.renderEffect (props_of (app s)) (view s) |}.

Definition update (f : App.State -> App.State) (s : State) : State :=
  rerender {| app := f (app s); view := view s |}.

(** A change made with one of the five style controls. *)
Definition styleChanged (ev : App.StyleChange) (s : State) : State :=
  update (App.applyStyle ev) s.

(** A click on a drawn country: [onCountryClick(String(d.id))]. *)
Definition countryClicked (d : Types.MapFeature) (s : State) : State :=
  update (App.handleToggleCountry (Types.String_id d)) s.

(** A pan or zoom gesture, which reaches the view only. *)
Definition gesture (t : D3.ZoomTransform) (s : State) : State :=
  {| app := app s; view := MapView.zoomed t (view s) |}.

End Session.

(** * Properties *)

Section Selection.

Lemma toggle_elem (id x : string) (s : gset string) :
  x ∈ App.toggle id s ↔ (x ∈ s ∧ x ≠ id) ∨ (x = id ∧ id ∉ s).
Proof.
  unfold App.toggle. case_decide.
  - rewrite elem_of_difference, elem_of_singleton.
    intuition congruence.
  - rewrite elem_of_union, elem_of_singleton.
    intuition congruence.
Qed.

(** C5: toggling the same country id twice in succession gives back a
    selection set with exactly the original members. *)
Theorem toggle_twice_restores (id : string) (st : App.State) :
  App.selectedCountryIds (App.handleToggleCountry id (App.handleToggleCountry id st))
  = App.selectedCountryIds st.
Proof.
  simpl. apply set_eq. intros x.
  rewrite !toggle_elem.
  destruct (decide (x = id)) as [->|Hne]; [|intuition congruence].
  destruct (decide (id ∈ App.selectedCountryIds st)); intuition congruence.
Qed.

End Selection.

Section Markers.

Example blank_input_is_ignored :
  App.handleAddCity_submit (App.setCityInput "  " App.initial)
  = (App.setCityInput "  " App.initial, [App.PreventDefault], false).
Proof. reflexivity. Qed.

Example ideographic_space_is_blank : App.trim_is_empty "　" = true.
Proof. reflexivity. Qed.

Example shanghai_is_not_blank : App.trim_is_empty "上海 - 出差" = false.
Proof. reflexivity. Qed.

Lemma filter_index_drops_last {A : Type} (l : list A) (c : A) (n : nat) :
  App.filter_index (fun _ i => negb (Nat.eqb i (n + length l))) n (l ++ [c]) = l.
Proof.
  revert n. induction l as [|a l IH]; intros n; simpl.
  - rewrite Nat.add_0_r, Nat.eqb_refl. reflexivity.
  - destruct (Nat.eqb_spec n (n + S (length l))) as [E|_]; [lia|]. simpl.
    f_equal. rewrite <- Nat.add_succ_comm. apply IH.
Qed.

Lemma settle_cities (r : App.Resolution) (st : App.State) :
  App.cities (fst (App.handleAddCity_settle r st))
  = App.cities st ++ match r with App.Parsed result => [result] | _ => [] end.
Proof.
  destruct r; simpl; try reflexivity; symmetry; apply app_nil_r.
Qed.

(** C6: appending a marker and then removing it by its index (the length
    of the sequence before the append) gives back the prior sequence, in its
    order. *)
Theorem add_then_remove_restores (st : App.State) (c : App.City) :
  App.cities
    (App.removeCity (length (App.cities st))
       (fst (App.handleAddCity_settle (App.Parsed c) st)))
  = App.cities st.
Proof.
  simpl. apply (filter_index_drops_last (App.cities st) c 0).
Qed.

Example remove_keeps_order :
  App.filter_index (fun _ i => negb (Nat.eqb i 1)) 0 [10; 20; 30] = [10; 30].
Proof. reflexivity. Qed.

(** C3 fails on the code: a service result that parses as JSON and carries
    neither [lat] nor [lng] is appended to the city sequence. *)
Lemma marker_without_coordinates_is_appended :
  App.well_formed_city (Json.JObj [("name", Json.JStr "Atlantis")]) = false
  /\ App.cities
       (fst (App.handleAddCity
               (App.Parsed (Json.JObj [("name", Json.JStr "Atlantis")]))
               (App.setCityInput "Atlantis" App.initial)))
     = [Json.JObj [("name", Json.JStr "Atlantis")]].
Proof. split; reflexivity. Qed.

(** C3, amended: the parsed service result is appended to the city
    sequence as it is, whatever it holds; nothing is appended only when the
    service call or the parse fails. *)
Theorem parsed_result_is_appended_unchecked (r : App.Resolution) (st : App.State) :
  App.cities (fst (App.handleAddCity_settle r st))
  = match r with
    | App.Parsed result => App.cities st ++ [result]
    | App.ServiceError _ | App.Unparsable _ => App.cities st
    end.
Proof.
  rewrite settle_cities. destruct r; try reflexivity; apply app_nil_r.
Qed.

(** C4: when the location resolution fails (the service call throws or its
    answer does not parse), the failure message is shown, and the city
    sequence and the text of the input are what they were; this holds for
    the step that handles the settled call and for the whole handler. *)
Theorem failure_keeps_markers_and_input (r : App.Resolution) (st : App.State) :
  App.failed r ->
  (App.cities (fst (App.handleAddCity_settle r st)) = App.cities st
   /\ App.cityInput (fst (App.handleAddCity_settle r st)) = App.cityInput st
   /\ In (App.Alert App.failure_message) (snd (App.handleAddCity_settle r st)))
  /\ (App.cities (fst (App.handleAddCity r st)) = App.cities st
      /\ App.cityInput (fst (App.handleAddCity r st)) = App.cityInput st
      /\ (snd (App.handleAddCity_submit st) = true ->
          In (App.Alert App.failure_message) (snd (App.handleAddCity r st)))).
Proof.
  intros Hr. destruct r as [err|err|result]; [| |destruct Hr].
  all: split; [simpl; auto|].
  all: unfold App.handleAddCity, App.handleAddCity_submit.
  all: destruct (App.trim_is_empty (App.cityInput st) || App.isLocating st);
    simpl; repeat split; auto; discriminate.
Qed.

Lemma failure_keeps_markers_and_input_witness :
  App.failed (App.Unparsable "SyntaxError")
  /\ App.cities
       (fst (App.handleAddCity (App.Unparsable "SyntaxError")
               (App.setCityInput "???" App.initial)))
     = [].
Proof.
  split; [exact I|].
  apply (failure_keeps_markers_and_input (App.Unparsable "SyntaxError")
           (App.setCityInput "???" App.initial) I).
Defined.

(** C10: the clear-all handler empties the selection set and the city
    sequence in one step and leaves the five style values and the pending
    input text as they were. *)
Theorem clear_all_resets_layers_only (st : App.State) :
  App.selectedCountryIds (App.clearAll st) = ∅
  /\ App.cities (App.clearAll st) = []
  /\ App.countryColor (App.clearAll st) = App.countryColor st
  /\ App.cityColor (App.clearAll st) = App.cityColor st
  /\ App.textColor (App.clearAll st) = App.textColor st
  /\ App.fontFamily (App.clearAll st) = App.fontFamily st
  /\ App.fontSize (App.clearAll st) = App.fontSize st
  /\ App.cityInput (App.clearAll st) = App.cityInput st.
Proof. repeat split. Qed.

End Markers.

Section Projection.

#[local] Open Scope Q_scope.

Lemma radians_pos : 0 < D3.radians.
Proof. reflexivity. Qed.

Lemma half_turn_in_degrees : 180 * D3.radians == D3.pi.
Proof. reflexivity. Qed.

Lemma num_nonneg (n : N) : 0 <= MapView.num n.
Proof.
  unfold MapView.num. change 0 with (inject_Z 0). rewrite <- Zle_Qle. lia.
Qed.

Lemma scale_nonneg (width height : N) :
  0 <= D3.scale (MapView.projection width height).
Proof.
  simpl. unfold Qdiv. apply Qmult_le_0_compat; [apply num_nonneg|].
  apply Qinv_le_0_compat. discriminate.
Qed.

(** A longitude between -180 and 180 degrees is not wrapped. *)
Lemma rotation_keeps_valid_longitude (lng phi : Q) :
  -180 <= lng -> lng <= 180 ->
  D3.rotationIdentity (lng * D3.radians) phi = (lng * D3.radians, phi).
Proof.
  intros Hlo Hhi. unfold D3.rotationIdentity.
  assert (H : Qle_bool (Qabs (lng * D3.radians)) D3.pi = true).
  { apply Qle_bool_iff, Qabs_Qle_condition.
    rewrite <- half_turn_in_degrees. pose proof radians_pos as Hr.
    split.
    - assert (E : - (180 * D3.radians) == (-180) * D3.radians) by ring.
      rewrite E.
      apply Qmult_le_compat_r; [exact Hlo | apply Qlt_le_weak, Hr].
    - apply Qmult_le_compat_r; [exact Hhi | apply Qlt_le_weak, Hr]. }
  rewrite H. reflexivity.
Qed.

Lemma project_valid_longitude (width height : N) (lng lat : Q) :
  -180 <= lng -> lng <= 180 ->
  MapView.project width height lng lat
  = (fst (D3.translate (MapView.projection width height))
       + D3.scale (MapView.projection width height) * (lng * D3.radians),
     snd (D3.translate (MapView.projection width height))
       - D3.scale (MapView.projection width height) * (lat * D3.radians)).
Proof.
  intros Hlo Hhi. unfold MapView.project, D3.geoEquirectangular.
  cbn [fst snd]. rewrite (rotation_keeps_valid_longitude _ _ Hlo Hhi).
  reflexivity.
Qed.

Lemma project_snd (width height : N) (lng lat : Q) :
  snd (MapView.project width height lng lat)
  = snd (D3.translate (MapView.projection width height))
    - D3.scale (MapView.projection width height) * (lat * D3.radians).
Proof.
  unfold MapView.project, D3.geoEquirectangular, D3.rotationIdentity.
  cbn [fst snd]. reflexivity.
Qed.

Lemma scaled_angle_monotone (k a b : Q) :
  0 <= k -> a <= b -> k * (a * D3.radians) <= k * (b * D3.radians).
Proof.
  intros Hk Hab. rewrite !(Qmult_comm k).
  apply Qmult_le_compat_r; [|exact Hk].
  apply Qmult_le_compat_r; [exact Hab | apply Qlt_le_weak, radians_pos].
Qed.

(** C8: for a fixed viewport size and coordinates in the valid ranges, a
    larger longitude never gives a smaller x and a larger latitude never
    gives a larger y, whatever the other coordinate is. *)
Theorem projection_monotonic (width height : N) (lng1 lng2 lat1 lat2 : Q) :
  -180 <= lng1 -> lng1 <= lng2 -> lng2 <= 180 ->
  -90 <= lat1 -> lat1 <= lat2 -> lat2 <= 90 ->
  (forall lat, fst (MapView.project width height lng1 lat)
               <= fst (MapView.project width height lng2 lat))
  /\ (forall lng, snd (MapView.project width height lng lat2)
                  <= snd (MapView.project width height lng lat1)).
Proof.
  intros Hlo Hlng Hhi _ Hlat _.
  pose proof (scale_nonneg width height) as Hk.
  split.
  - intros lat.
    rewrite (project_valid_longitude width height lng1 lat)
      by (trivial; apply Qle_trans with lng2; trivial).
    rewrite (project_valid_longitude width height lng2 lat)
      by (trivial; apply Qle_trans with lng1; trivial).
    cbn [fst]. apply Qplus_le_r. apply scaled_angle_monotone; trivial.
  - intros lng. rewrite !project_snd.
    unfold Qminus. apply Qplus_le_r. apply Qopp_le_compat.
    apply scaled_angle_monotone; trivial.
Qed.

Lemma projection_monotonic_witness :
  fst (MapView.project 960 540 (-74) 31) <= fst (MapView.project 960 540 121 31)
  /\ snd (MapView.project 960 540 121 40) <= snd (MapView.project 960 540 121 31).
Proof.
  assert (H : forall a b : Q, Qle_bool a b = true -> a <= b)
    by (intros a b; apply Qle_bool_iff).
  destruct (projection_monotonic 960 540 (-74) 121 31 40) as [Hx Hy];
    try (apply H; reflexivity).
  split; [apply Hx | apply Hy].
Defined.

(** Outside the valid range the longitude wraps: 190 degrees east lands
    west of 170 degrees east. *)
Example longitude_beyond_range_wraps :
  fst (MapView.project 360 180 190 0) < fst (MapView.project 360 180 170 0).
Proof. reflexivity. Qed.

Example project_origin :
  fst (MapView.project 360 180 0 0) == 180 /\ snd (MapView.project 360 180 0 0) == 108.
Proof. split; reflexivity. Qed.

Example project_east_edge : fst (MapView.project 360 180 180 0) == 360.
Proof. reflexivity. Qed.

End Projection.

Section FeatureIndex.

Lemma not_antarctica_spec (f : Types.MapFeature) :
  Types.not_antarctica f = true <-> ~ Types.denotes_antarctica f.
Proof.
  unfold Types.not_antarctica, Types.denotes_antarctica.
  rewrite andb_true_iff, !negb_true_iff, bool_decide_eq_false, String.eqb_neq.
  tauto.
Qed.

Lemma load_features_spec (features : list Types.MapFeature) (f : Types.MapFeature) :
  In f (MapView.load_features features)
  <-> In f features /\ ~ Types.denotes_antarctica f.
Proof.
  unfold MapView.load_features. rewrite filter_In, not_antarctica_spec. tauto.
Qed.

Lemma mounted_antarctica_free (rect : Q * Q) (c : MapView.Container) :
  MapView.antarctica_free (MapView.mounted rect c).
Proof.
  split; [discriminate | intros f []].
Qed.

Lemma drawn_after_render (p : MapView.Props) (world : list Types.MapFeature) :
  map MapView.country_datum (map (MapView.country_path p) world) = world.
Proof.
  rewrite map_map. simpl. apply map_id.
Qed.

Lemma step_antarctica_free (e : MapView.Event) (st : MapView.State) :
  MapView.antarctica_free st -> MapView.antarctica_free (MapView.step e st).
Proof.
  intros [Hindex Hdrawn]. destruct e as [features metaData|p|t|c rect]; simpl.
  - split.
    + intros fs f [= <-] Hf. apply load_features_spec in Hf. tauto.
    + exact Hdrawn.
  - unfold MapView.renderEffect.
    destruct (MapView.worldData st) as [world|] eqn:Hw;
      [|split; [rewrite Hw; discriminate | exact Hdrawn]].
    destruct (MapView.svgRef st) as [svg|] eqn:Hs;
      [|split; [rewrite Hw; exact Hindex | exact Hdrawn]].
    destruct (MapView.containerRef st) as [container|] eqn:Hc;
      [|split; [rewrite Hw; exact Hindex | exact Hdrawn]].
    split.
    + simpl. exact Hindex.
    + unfold MapView.drawn_features. simpl. rewrite drawn_after_render.
      intros f Hf. exact (Hindex world f eq_refl Hf).
  - unfold MapView.zoomed.
    destruct (MapView.svgRef st) as [[w h [g|] z r]|] eqn:Hs;
      [|split; assumption ..].
    split; [exact Hindex|].
    unfold MapView.drawn_features in *. rewrite Hs in Hdrawn. exact Hdrawn.
  - split; [exact Hindex|].
    unfold MapView.resized, MapView.drawn_features in *. simpl.
    destruct (MapView.svgRef st) as [[w h [g|] z r]|]; exact Hdrawn.
Qed.

Lemma run_antarctica_free (events : list MapView.Event) (st : MapView.State) :
  MapView.antarctica_free st -> MapView.antarctica_free (MapView.run events st).
Proof.
  revert st. induction events as [|e events IH]; intros st Hst; [exact Hst|].
  simpl. apply IH, step_antarctica_free, Hst.
Qed.

Lemma String_id_not_010 (g : Types.MapFeature) :
  ~ Types.denotes_antarctica g -> Types.String_id g <> "010".
Proof.
  unfold Types.denotes_antarctica, Types.String_id.
  destruct (Types.id g) as [s|]; [|discriminate].
  intros Hg ->. tauto.
Qed.

Section Selector.

Variable sort : list CountrySelector.Country -> list CountrySelector.Country.
Hypothesis sort_permutes : forall l, sort l ≡ₚ l.

Lemma loaded_list_spec (geometries : list Types.MapFeature)
  (metaData : list Types.Meta) (c : CountrySelector.Country) :
  In c (CountrySelector.loaded_list sort geometries metaData)
  <-> exists g, In g geometries /\ ~ Types.denotes_antarctica g
                /\ c = CountrySelector.entry metaData g.
Proof.
  unfold CountrySelector.loaded_list.
  rewrite <- !list_elem_of_In, sort_permutes, !list_elem_of_In, in_map_iff.
  split; intros (g & H1 & H2); exists g.
  - apply filter_In in H2. rewrite not_antarctica_spec in H2. intuition.
  - rewrite filter_In, not_antarctica_spec. intuition.
Qed.

(** C7: whatever the atlas holds, after any sequence of data loads,
    renders, zoom events and resizes the feature index of the map view and
    the country paths it draws (which carry the click listeners) hold no
    feature with id "010" or name "Antarctica"; and every entry of the
    country list comes from an atlas geometry that has neither, and does
    not have the id "010". *)
Theorem antarctica_never_indexed
  (events : list MapView.Event) (rect : Q * Q) (container : MapView.Container)
  (geometries : list Types.MapFeature) (metaData : list Types.Meta) :
  (forall fs f,
      MapView.worldData (MapView.run events (MapView.mounted rect container)) = Some fs ->
      In f fs -> Types.id f <> Some "010" /\ Types.name f <> "Antarctica")
  /\ (forall f,
         In f (MapView.drawn_features (MapView.run events (MapView.mounted rect container))) ->
         Types.id f <> Some "010" /\ Types.name f <> "Antarctica")
  /\ (forall c,
         In c (CountrySelector.loaded_list sort geometries metaData) ->
         CountrySelector.id c <> "010"
         /\ exists g, In g geometries
                      /\ Types.id g <> Some "010" /\ Types.name g <> "Antarctica"
                      /\ c = CountrySelector.entry metaData g).
Proof.
  destruct (run_antarctica_free events _ (mounted_antarctica_free rect container))
    as [Hindex Hdrawn].
  unfold Types.denotes_antarctica in *.
  split; [|split].
  - intros fs f Hfs Hf. specialize (Hindex fs f Hfs Hf). tauto.
  - intros f Hf. specialize (Hdrawn f Hf). tauto.
  - intros c Hc. apply loaded_list_spec in Hc. destruct Hc as (g & Hg & Hna & ->).
    split; [apply String_id_not_010, Hna|].
    exists g. unfold Types.denotes_antarctica in Hna. tauto.
Qed.

End Selector.

Lemma antarctica_never_indexed_witness :
  Types.id (Types.mkFeature "Feature" (Some "250") "France" []) <> Some "010"
  /\ Types.name (Types.mkFeature "Feature" (Some "250") "France" []) <> "Antarctica".
Proof.
  apply (proj1 (proj2 (antarctica_never_indexed
                         (fun l => l) (fun l => reflexivity l)
                         [ MapView.DataLoaded
                             [ Types.mkFeature "Feature" (Some "010") "Antarctica" [];
                               Types.mkFeature "Feature" (Some "250") "France" [] ] [];
                           MapView.Render (Session.props_of App.initial) ]
                         (640%Q, 360%Q) (MapView.mkContainer 640 360) [] []))).
  vm_compute. left. reflexivity.
Defined.

Example antarctica_is_dropped_on_load :
  MapView.drawn_features
    (MapView.run
       [ MapView.DataLoaded
           [ Types.mkFeature "Feature" (Some "010") "Antarctica" [];
             Types.mkFeature "Feature" (Some "250") "France" [] ] [];
         MapView.Render (Session.props_of App.initial) ]
       (MapView.mounted (640%Q, 360%Q) (MapView.mkContainer 640 360)))
  = [ Types.mkFeature "Feature" (Some "250") "France" [] ].
Proof. reflexivity. Qed.

End FeatureIndex.

Section PngExport.

Lemma to_unsigned_long_floor (x : Q) :
  (0 <= x)%Q -> (x < 4294967296)%Q -> MapView.to_unsigned_long x = Qfloor x.
Proof.
  intros Hx Hlt. unfold MapView.to_unsigned_long.
  pose proof (Qfloor_resp_le 0 x Hx) as Hlo. change (Qfloor 0) with 0%Z in Hlo.
  assert (Hhi : (Qfloor x < 4294967296)%Z).
  { rewrite Zlt_Qlt. apply Qle_lt_trans with x; [apply Qfloor_le | exact Hlt]. }
  destruct x as [n d]. unfold Qfloor in *. simpl Qnum. simpl Qden.
  assert (Hn : (0 <= n)%Z) by (unfold Qle in Hx; simpl in Hx; lia).
  rewrite Z.quot_div_nonneg by lia.
  apply Z.mod_small. change (2 ^ 32)%Z with 4294967296%Z. lia.
Qed.

Lemma set_canvas_size_floor (default : Z) (x : Q) :
  (0 <= x)%Q -> (x < 2147483648)%Q -> MapView.set_canvas_size default x = Qfloor x.
Proof.
  intros Hx Hlt. unfold MapView.set_canvas_size.
  rewrite to_unsigned_long_floor;
    [|exact Hx | apply Qlt_trans with 2147483648%Q; [exact Hlt | reflexivity]].
  assert (H : (Qfloor x < 2147483648)%Z).
  { rewrite Zlt_Qlt. apply Qle_lt_trans with x; [apply Qfloor_le | exact Hlt]. }
  destruct (Z.leb_spec (Qfloor x) 2147483647); [reflexivity | lia].
Qed.

Lemma floor_of_twice_whole (q : Q) (n : N) :
  (q == MapView.num n)%Q -> Qfloor (q * MapView.scale) = (2 * Z.of_N n)%Z.
Proof.
  intros Hq.
  assert (E : (q * MapView.scale == inject_Z (2 * Z.of_N n))%Q).
  { rewrite Hq. unfold MapView.num, MapView.scale.
    rewrite inject_Z_mult. change (inject_Z 2) with 2%Q. ring. }
  rewrite (Qfloor_comp _ _ E). apply Qfloor_Z.
Qed.

(** The canvas size in general: twice the reported size, fraction dropped. *)
Example canvas_size_of_fractional_height :
  MapView.to_unsigned_long ((9009 # 16) * MapView.scale) = 1126%Z.
Proof. reflexivity. Qed.

(** C1 fails on the code: with the component mounted and no geometry
    loaded yet, the export goes through and a file holding a blank white
    image is downloaded. *)
Lemma export_before_geometry_downloads_blank :
  MapView.worldData (MapView.mounted (640%Q, 360%Q) (MapView.mkContainer 640 360)) = None
  /\ (MapView.exportToPng true
        (MapView.mounted (640%Q, 360%Q) (MapView.mkContainer 640 360))
      ≫= MapView.img_onload 1700000000000)
     = Some {| MapView.download := "world-travel-map-1700000000000.png";
               MapView.png_width := 1280;
               MapView.png_height := 720;
               MapView.png_painted :=
                 [ MapView.FillRect "white" 0 0 1280 720;
                   MapView.DrawImage
                     (MapView.mkSvg None None None None (640%Q, 360%Q))
                     0 0 1280 720 ] |}.
Proof. split; reflexivity. Qed.

(** C1, amended: while the [svg] element is not mounted, the export
    operation is a no-op: it prepares no canvas and no image, so nothing is
    downloaded. *)
Theorem export_without_svg_is_noop (has_ctx : bool) (st : MapView.State) :
  MapView.svgRef st = None -> MapView.exportToPng has_ctx st = None.
Proof.
  intros H. unfold MapView.exportToPng. rewrite H. reflexivity.
Qed.

Lemma export_without_svg_is_noop_witness :
  MapView.exportToPng true (MapView.mkState None ∅ None None false) = None.
Proof.
  apply (export_without_svg_is_noop true (MapView.mkState None ∅ None None false)).
  reflexivity.
Defined.

(** The guard looks at the element and at nothing else. *)
Lemma export_runs_iff_svg_mounted (has_ctx : bool) (st : MapView.State) :
  MapView.exportToPng has_ctx st = None <-> MapView.svgRef st = None.
Proof.
  unfold MapView.exportToPng. destruct (MapView.svgRef st); split; congruence.
Qed.

(** C9 fails on the code: an [svg] element shown at 1001 by 563.0625
    pixels, the height the 16:9 container gives a width of 1001, is
    exported as an image 1126 pixels high, which is not twice 563.0625. *)
Lemma export_of_fractional_height_is_not_double :
  MapView.png_height <$>
    (MapView.exportToPng true
       (MapView.run
          [ MapView.DataLoaded [ Types.mkFeature "Feature" (Some "156") "China" [] ] [];
            MapView.Render (Session.props_of (App.handleToggleCountry "156" App.initial)) ]
          (MapView.mounted (1001%Q, (9009 # 16)%Q) (MapView.mkContainer 1001 563)))
     ≫= MapView.img_onload 1700000000000)
  = Some 1126%Z
  /\ ~ (inject_Z 1126 == 2 * (9009 # 16))%Q.
Proof. split; [reflexivity | discriminate]. Qed.

(** C9, amended: with the [svg] element mounted, a 2d context available
    and the image loaded, and with twice each side of the on-screen size
    below 2^31, the export produces an image whose width and height are
    twice the on-screen width and height with the fraction dropped (exactly
    twice them where the on-screen size is a whole number of pixels),
    painted first with a white rectangle over the whole canvas and then
    with the serialised scene over it. *)
Theorem export_size_is_twice_truncated
  (st : MapView.State) (svg : MapView.SvgElement) (now : Z) :
  MapView.svgRef st = Some svg ->
  (0 <= fst (MapView.svg_rect svg))%Q -> (0 <= snd (MapView.svg_rect svg))%Q ->
  (fst (MapView.svg_rect svg) * MapView.scale < 2147483648)%Q ->
  (snd (MapView.svg_rect svg) * MapView.scale < 2147483648)%Q ->
  MapView.exportToPng true st ≫= MapView.img_onload now
  = Some {| MapView.download := "world-travel-map-" +:+ pretty now +:+ ".png";
            MapView.png_width := Qfloor (fst (MapView.svg_rect svg) * MapView.scale);
            MapView.png_height := Qfloor (snd (MapView.svg_rect svg) * MapView.scale);
            MapView.png_painted :=
              [ MapView.FillRect "white" 0 0
                  (Qfloor (fst (MapView.svg_rect svg) * MapView.scale))
                  (Qfloor (snd (MapView.svg_rect svg) * MapView.scale));
                MapView.DrawImage svg 0 0
                  (Qfloor (fst (MapView.svg_rect svg) * MapView.scale))
                  (Qfloor (snd (MapView.svg_rect svg) * MapView.scale)) ] |}
  /\ (forall w : N,
         (fst (MapView.svg_rect svg) == MapView.num w)%Q ->
         Qfloor (fst (MapView.svg_rect svg) * MapView.scale) = (2 * Z.of_N w)%Z)
  /\ (forall h : N,
         (snd (MapView.svg_rect svg) == MapView.num h)%Q ->
         Qfloor (snd (MapView.svg_rect svg) * MapView.scale) = (2 * Z.of_N h)%Z).
Proof.
  intros Hsvg Hw0 Hh0 Hw Hh.
  assert (Hsw : (0 <= fst (MapView.svg_rect svg) * MapView.scale)%Q)
    by (apply Qmult_le_0_compat; [exact Hw0 | discriminate]).
  assert (Hsh : (0 <= snd (MapView.svg_rect svg) * MapView.scale)%Q)
    by (apply Qmult_le_0_compat; [exact Hh0 | discriminate]).
  split; [|split; intros n Hn; apply floor_of_twice_whole, Hn].
  unfold MapView.exportToPng. rewrite Hsvg. simpl.
  unfold MapView.img_onload. simpl.
  rewrite (set_canvas_size_floor 300 _ Hsw Hw), (set_canvas_size_floor 150 _ Hsh Hh).
  reflexivity.
Qed.

(** Country "156" is selected, the scene is drawn at 640 × 360, and the
    export gives a 1280 × 720 image. *)
Lemma export_size_is_twice_truncated_witness :
  MapView.png_width <$>
    (MapView.exportToPng true
       (MapView.run
          [ MapView.DataLoaded [ Types.mkFeature "Feature" (Some "156") "China" [] ] [];
            MapView.Render (Session.props_of (App.handleToggleCountry "156" App.initial)) ]
          (MapView.mounted (640%Q, 360%Q) (MapView.mkContainer 640 360)))
     ≫= MapView.img_onload 1700000000000)
  = Some 1280%Z
  /\ MapView.png_height <$>
       (MapView.exportToPng true
          (MapView.run
             [ MapView.DataLoaded [ Types.mkFeature "Feature" (Some "156") "China" [] ] [];
               MapView.Render (Session.props_of (App.handleToggleCountry "156" App.initial)) ]
             (MapView.mounted (640%Q, 360%Q) (MapView.mkContainer 640 360)))
        ≫= MapView.img_onload 1700000000000)
     = Some 720%Z.
Proof.
  match goal with
  | |- context [MapView.exportToPng true ?st] =>
      rewrite (proj1 (export_size_is_twice_truncated st _ 1700000000000 eq_refl
                        ltac:(discriminate) ltac:(discriminate)
                        ltac:(reflexivity) ltac:(reflexivity)))
  end.
  split; reflexivity.
Defined.

(** A side of 2^30 pixels or more is not doubled: the canvas falls back to
    its default size. *)
Example export_of_huge_width_falls_back :
  MapView.set_canvas_size 300 (1073741824 * MapView.scale) = 300%Z.
Proof. reflexivity. Qed.

End PngExport.

Section StyleChange.

Lemma applyStyle_frame (ev : App.StyleChange) (st : App.State) :
  App.selectedCountryIds (App.applyStyle ev st) = App.selectedCountryIds st
  /\ App.cities (App.applyStyle ev st) = App.cities st
  /\ App.cityInput (App.applyStyle ev st) = App.cityInput st.
Proof. destruct ev; repeat split. Qed.

Lemma call_zoom_default (z : option D3.ZoomTransform) :
  default D3.zoomIdentity (MapView.call_zoom z) = default D3.zoomIdentity z.
Proof. destruct z; reflexivity. Qed.

Lemma zoomTransform_unfold (st : MapView.State) :
  MapView.zoomTransform st
  = default D3.zoomIdentity (MapView.svgRef st ≫= MapView.svg_zoom).
Proof.
  unfold MapView.zoomTransform.
  destruct (MapView.svgRef st) as [[w h g [z|] r]|]; reflexivity.
Qed.

Lemma renderEffect_keeps_zoomTransform (p : MapView.Props) (st : MapView.State) :
  MapView.zoomTransform (MapView.renderEffect p st) = MapView.zoomTransform st.
Proof.
  unfold MapView.renderEffect.
  destruct (MapView.worldData st) as [world|]; [|reflexivity].
  destruct (MapView.svgRef st) as [svg|] eqn:Hs; [|reflexivity].
  destruct (MapView.containerRef st) as [container|]; [|reflexivity].
  rewrite !zoomTransform_unfold, Hs. simpl. apply call_zoom_default.
Qed.

Lemma renderEffect_rebuilds_group (p : MapView.Props) (st : MapView.State) :
  MapView.renderEffect p st = st
  \/ MapView.groupTransform (MapView.renderEffect p st) = D3.zoomIdentity.
Proof.
  unfold MapView.renderEffect.
  destruct (MapView.worldData st) as [world|]; [|left; reflexivity].
  destruct (MapView.svgRef st) as [svg|]; [|left; reflexivity].
  destruct (MapView.containerRef st) as [container|]; [|left; reflexivity].
  right. reflexivity.
Qed.

Lemma step_keeps_zoomTransform (e : MapView.Event) (st : MapView.State) :
  match e with
  | MapView.Zoomed _ => True
  | _ => MapView.zoomTransform (MapView.step e st) = MapView.zoomTransform st
  end.
Proof.
  destruct e as [features metaData|p|t|c rect]; simpl.
  - reflexivity.
  - apply renderEffect_keeps_zoomTransform.
  - exact I.
  - rewrite !zoomTransform_unfold. simpl.
    destruct (MapView.svgRef st) as [svg|]; reflexivity.
Qed.

(** C2 fails on the code: after a zoom gesture the drawn group carries the
    gesture's transform; a change of the country colour rebuilds the group
    without it, and the scene is drawn untransformed. *)
Lemma style_change_drops_group_transform :
  MapView.groupTransform
    (Session.view
       (Session.gesture (D3.mkZoom 2 (-320) (-180))
          (Session.mkSession App.initial
             (MapView.run
                [ MapView.DataLoaded
                    [ Types.mkFeature "Feature" (Some "250") "France" [] ] [];
                  MapView.Render (Session.props_of App.initial) ]
                (MapView.mounted (640%Q, 360%Q) (MapView.mkContainer 640 360))))))
  = D3.mkZoom 2 (-320) (-180)
  /\ MapView.groupTransform
       (Session.view
          (Session.styleChanged (App.CountryColor "#00ff00")
             (Session.gesture (D3.mkZoom 2 (-320) (-180))
                (Session.mkSession App.initial
                   (MapView.run
                      [ MapView.DataLoaded
                          [ Types.mkFeature "Feature" (Some "250") "France" [] ] [];
                        MapView.Render (Session.props_of App.initial) ]
                      (MapView.mounted (640%Q, 360%Q) (MapView.mkContainer 640 360)))))))
     = D3.zoomIdentity
  /\ D3.zoomIdentity <> D3.mkZoom 2 (-320) (-180).
Proof. repeat split. discriminate. Qed.

(** C2, amended: a change of any of the five style values and the
    re-render it triggers leave the selection set and the city sequence
    unchanged, and leave unchanged the zoom transform d3 keeps for the
    [svg] element, which no event of the map view other than a zoom gesture
    changes; the transform attribute of the drawn group is not kept, since
    the re-render, where it runs, appends a new group without one. *)
Theorem style_change_frame (ev : App.StyleChange) (s : Session.State) :
  App.selectedCountryIds (Session.app (Session.styleChanged ev s))
  = App.selectedCountryIds (Session.app s)
  /\ App.cities (Session.app (Session.styleChanged ev s)) = App.cities (Session.app s)
  /\ MapView.zoomTransform (Session.view (Session.styleChanged ev s))
     = MapView.zoomTransform (Session.view s)
  /\ (forall e st,
         match e with
         | MapView.Zoomed _ => True
         | _ => MapView.zoomTransform (MapView.step e st) = MapView.zoomTransform st
         end)
  /\ (Session.view (Session.styleChanged ev s) = Session.view s
      \/ MapView.groupTransform (Session.view (Session.styleChanged ev s))
         = D3.zoomIdentity).
Proof.
  destruct (applyStyle_frame ev (Session.app s)) as (Hsel & Hcities & _).
  split; [exact Hsel|]. split; [exact Hcities|].
  split; [apply renderEffect_keeps_zoomTransform|].
  split; [apply step_keeps_zoomTransform|].
  apply renderEffect_rebuilds_group.
Qed.

Example zoom_state_survives_style_change :
  MapView.zoomTransform
    (Session.view
       (Session.styleChanged (App.FontSize 16)
          (Session.gesture (D3.mkZoom 2 (-320) (-180))
             (Session.mkSession App.initial
                (MapView.run
                   [ MapView.DataLoaded
                       [ Types.mkFeature "Feature" (Some "250") "France" [] ] [];
                     MapView.Render (Session.props_of App.initial) ]
                   (MapView.mounted (640%Q, 360%Q) (MapView.mkContainer 640 360)))))))
  = D3.mkZoom 2 (-320) (-180).
Proof. reflexivity. Qed.

End StyleChange.

(** * Further properties of the session component *)

Section SessionState.

Lemma filter_index_below {A : Type} (l : list A) (m n : nat) :
  m < n -> App.filter_index (fun _ i => negb (Nat.eqb i m)) n l = l.
Proof.
  revert n. induction l as [|a l IH]; intros n Hmn; simpl; [reflexivity|].
  destruct (Nat.eqb_spec n m) as [E|_]; [lia|]. simpl.
  f_equal. apply IH. lia.
Qed.

Lemma filter_index_take_drop {A : Type} (l : list A) (n k : nat) :
  App.filter_index (fun _ i => negb (Nat.eqb i (n + k))) n l
  = take k l ++ drop (S k) l.
Proof.
  revert n k. induction l as [|a l IH]; intros n k; simpl.
  - destruct k; reflexivity.
  - destruct k as [|k]; simpl.
    + rewrite Nat.add_0_r, Nat.eqb_refl. simpl.
      rewrite drop_0. apply filter_index_below. lia.
    + destruct (Nat.eqb_spec n (n + S k)) as [E|_]; [lia|]. simpl.
      f_equal. rewrite <- Nat.add_succ_comm. apply IH.
Qed.

(** X1: [removeCity] takes out the marker at the given position and nothing
    else: the markers before it and after it stay, in their order.  *)
Theorem remove_city_deletes_position (index : nat) (st : App.State) :
  App.cities (App.removeCity index st)
  = take index (App.cities st) ++ drop (S index) (App.cities st).
Proof.
  simpl. apply (filter_index_take_drop (App.cities st) 0 index).
Qed.

(** X2: an index at or beyond the end of the sequence removes nothing. *)
Theorem remove_city_out_of_range (index : nat) (st : App.State) :
  length (App.cities st) <= index -> App.removeCity index st = st.
Proof.
  intros H. destruct st as [sel cs inp loc c1 c2 c3 ff fs].
  unfold App.removeCity, App.setCities. simpl in *. f_equal.
  pose proof (filter_index_take_drop cs 0 index) as E. simpl in E. rewrite E.
  rewrite take_ge, drop_ge by lia. apply app_nil_r.
Qed.

Lemma remove_city_out_of_range_witness :
  App.removeCity 3 (App.setCities (fun _ => [Json.JNull; Json.JNull]) App.initial)
  = App.setCities (fun _ => [Json.JNull; Json.JNull]) App.initial.
Proof.
  apply (remove_city_out_of_range 3
           (App.setCities (fun _ => [Json.JNull; Json.JNull]) App.initial)).
  simpl. lia.
Defined.

(** X3: a toggle flips the membership of its id and of no other id. *)
Theorem toggle_flips_only_id (id : string) (st : App.State) :
  (id ∈ App.selectedCountryIds (App.handleToggleCountry id st)
   <-> id ∉ App.selectedCountryIds st)
  /\ (forall x, x <> id ->
        (x ∈ App.selectedCountryIds (App.handleToggleCountry id st)
         <-> x ∈ App.selectedCountryIds st)).
Proof.
  simpl. split; [|intros x Hx]; rewrite toggle_elem; intuition congruence.
Qed.

(** X4: toggles commute: the selection after clicks on two countries does not
    depend on the order of the clicks. *)
Theorem toggles_commute (a b : string) (st : App.State) :
  App.handleToggleCountry a (App.handleToggleCountry b st)
  = App.handleToggleCountry b (App.handleToggleCountry a st).
Proof.
  unfold App.handleToggleCountry, App.setSelectedCountryIds. simpl. f_equal.
  apply set_eq. intros x. rewrite !toggle_elem.
  destruct (decide (x = a)) as [Ha|Ha]; destruct (decide (x = b)) as [Hb|Hb];
    subst; intuition congruence.
Qed.

(** X5: while a location request is in flight, a further submit sends no
    request and changes nothing; whichever way the request ends, the
    handler is free again afterwards. *)
Theorem one_request_in_flight (r : App.Resolution) (st : App.State) :
  snd (App.handleAddCity_submit st) = true ->
  App.handleAddCity_submit (fst (fst (App.handleAddCity_submit st)))
  = (fst (fst (App.handleAddCity_submit st)), [App.PreventDefault], false)
  /\ App.isLocating (fst (fst (App.handleAddCity_submit st))) = true
  /\ App.isLocating
       (fst (App.handleAddCity_settle r (fst (fst (App.handleAddCity_submit st)))))
     = false.
Proof.
  unfold App.handleAddCity_submit.
  destruct (App.trim_is_empty (App.cityInput st) || App.isLocating st) eqn:Hg;
    [discriminate|]. intros _. simpl.
  rewrite orb_true_r. destruct r; repeat split.
Qed.

Lemma one_request_in_flight_witness :
  App.isLocating
    (fst (App.handleAddCity_settle (App.ServiceError "503")
            (fst (fst (App.handleAddCity_submit
                         (App.setCityInput "Lima" App.initial))))))
  = false.
Proof.
  apply (one_request_in_flight (App.ServiceError "503")
           (App.setCityInput "Lima" App.initial)).
  reflexivity.
Defined.

End SessionState.

(** * Further properties of the map view *)

Section Scene.

Lemma run_preserves (P : MapView.State -> Prop) :
  (forall e st, P st -> P (MapView.step e st)) ->
  forall events st, P st -> P (MapView.run events st).
Proof.
  intros Hstep events. induction events as [|e events IH]; intros st Hst.
  - exact Hst.
  - simpl. apply IH, Hstep, Hst.
Qed.

Lemma renderEffect_runs (p : MapView.Props) (st : MapView.State)
  (world : list Types.MapFeature) (svg : MapView.SvgElement)
  (c : MapView.Container) :
  MapView.worldData st = Some world -> MapView.svgRef st = Some svg ->
  MapView.containerRef st = Some c ->
  MapView.renderEffect p st
  = {| MapView.worldData := Some world;
       MapView.nameMap := MapView.nameMap st;
       MapView.svgRef :=
         Some {| MapView.svg_width := Some (MapView.clientWidth c);
                 MapView.svg_height := Some (MapView.clientHeight c);
                 MapView.svg_content :=
                   Some {| MapView.g_transform := None;
                           MapView.g_projection :=
                             MapView.projection (MapView.clientWidth c)
                               (MapView.clientHeight c);
                           MapView.g_background :=
                             MapView.background (MapView.clientWidth c)
                               (MapView.clientHeight c);
                           MapView.g_countries := map (MapView.country_path p) world;
                           MapView.g_cities :=
                             map (MapView.city_label (MapView.clientWidth c)
                                    (MapView.clientHeight c) p)
                                 (MapView.cities p) |};
                 MapView.svg_zoom := MapView.call_zoom (MapView.svg_zoom svg);
                 MapView.svg_rect := MapView.svg_rect svg |};
       MapView.containerRef := Some c;
       MapView.resizeListener := true |}.
Proof.
  intros Hw Hs Hc. unfold MapView.renderEffect. rewrite Hw, Hs, Hc. reflexivity.
Qed.

(** X10: running the render effect again with the same props changes nothing:
    a re-render replaces the scene and adds nothing to it. *)
Theorem render_is_idempotent (p : MapView.Props) (st : MapView.State) :
  MapView.renderEffect p (MapView.renderEffect p st) = MapView.renderEffect p st.
Proof.
  destruct (MapView.worldData st) as [world|] eqn:Hw;
    [|assert (E : MapView.renderEffect p st = st)
        by (unfold MapView.renderEffect; rewrite Hw; reflexivity);
      rewrite !E; reflexivity].
  destruct (MapView.svgRef st) as [svg|] eqn:Hs;
    [|assert (E : MapView.renderEffect p st = st)
        by (unfold MapView.renderEffect; rewrite Hw, Hs; reflexivity);
      rewrite !E; reflexivity].
  destruct (MapView.containerRef st) as [c|] eqn:Hc;
    [|assert (E : MapView.renderEffect p st = st)
        by (unfold MapView.renderEffect; rewrite Hw, Hs, Hc; reflexivity);
      rewrite !E; reflexivity].
  rewrite (renderEffect_runs p st world svg c Hw Hs Hc).
  erewrite renderEffect_runs by reflexivity. simpl.
  destruct (MapView.svg_zoom svg); reflexivity.
Qed.



(** X12: a click on a drawn country redraws the map with the fill of every path
    of that id flipped between the highlight colour and the neutral grey,
    and every other path filled as before. *)
Theorem click_flips_fill (d : Types.MapFeature) (s : Session.State)
  (world : list Types.MapFeature) (svg : MapView.SvgElement)
  (c : MapView.Container) :
  MapView.worldData (Session.view s) = Some world ->
  MapView.svgRef (Session.view s) = Some svg ->
  MapView.containerRef (Session.view s) = Some c ->
  MapView.drawn_paths (Session.view (Session.countryClicked d s))
  = map (fun f =>
           {| MapView.country_datum := f;
              MapView.country_fill :=
                if decide (Types.String_id f = Types.String_id d)
                then (if decide (Types.String_id d ∈ App.selectedCountryIds (Session.app s))
                      then "#e2e8f0" else App.countryColor (Session.app s))
                else (if decide (Types.String_id f ∈ App.selectedCountryIds (Session.app s))
                      then App.countryColor (Session.app s) else "#e2e8f0") |})
        world.
Proof.
  intros Hw Hs Hc. unfold Session.countryClicked, Session.update, Session.rerender.
  simpl. rewrite (renderEffect_runs _ _ world svg c Hw Hs Hc).
  unfold MapView.drawn_paths. simpl. apply map_ext. intros f.
  unfold MapView.country_path. simpl. f_equal.
  pose proof (toggle_elem (Types.String_id d) (Types.String_id f)
                (App.selectedCountryIds (Session.app s))) as Ht.
  repeat case_decide; try reflexivity; exfalso; intuition congruence.
Qed.

Lemma click_flips_fill_witness :
  MapView.drawn_paths
    (Session.view
       (Session.countryClicked (Types.mkFeature "Feature" (Some "156") "China" [])
          (Session.mkSession App.initial
             (MapView.dataLoaded [Types.mkFeature "Feature" (Some "156") "China" []] []
                (MapView.mounted (640%Q, 360%Q) (MapView.mkContainer 640 360))))))
  = [ {| MapView.country_datum := Types.mkFeature "Feature" (Some "156") "China" [];
         MapView.country_fill := "#f97316" |} ].
Proof.
  apply (click_flips_fill (Types.mkFeature "Feature" (Some "156") "China" [])
           (Session.mkSession App.initial
              (MapView.dataLoaded [Types.mkFeature "Feature" (Some "156") "China" []] []
                 (MapView.mounted (640%Q, 360%Q) (MapView.mkContainer 640 360))))
           _ _ _ eq_refl eq_refl eq_refl).
Defined.

(** A gesture begun before a re-render and continued after it moves the
    transform d3 holds and leaves the drawn group as the re-render made
    it. *)
Example detached_gesture_leaves_group :
  MapView.groupTransform
    (MapView.zoomed_detached (D3.mkZoom 4 0 0)
       (MapView.run
          [ MapView.DataLoaded [] [];
            MapView.Render (Session.props_of App.initial);
            MapView.Zoomed (D3.mkZoom 2 0 0);
            MapView.Render (Session.props_of App.initial) ]
          (MapView.mounted (640%Q, 360%Q) (MapView.mkContainer 640 360))))
  = D3.zoomIdentity
  /\ MapView.zoomTransform
       (MapView.zoomed_detached (D3.mkZoom 4 0 0)
          (MapView.run
             [ MapView.DataLoaded [] [];
               MapView.Render (Session.props_of App.initial);
               MapView.Zoomed (D3.mkZoom 2 0 0);
               MapView.Render (Session.props_of App.initial) ]
             (MapView.mounted (640%Q, 360%Q) (MapView.mkContainer 640 360))))
     = D3.mkZoom 4 0 0.
Proof. split; reflexivity. Qed.

Lemma step_size_in_sync (e : MapView.Event) (st : MapView.State) :
  MapView.size_in_sync st -> MapView.size_in_sync (MapView.step e st).
Proof.
  unfold MapView.size_in_sync.
  destruct e as [features metaData|p|t|c rect]; simpl.
  - auto.
  - destruct (MapView.worldData st) as [world|] eqn:Hw;
      [|unfold MapView.renderEffect; rewrite Hw; auto].
    destruct (MapView.svgRef st) as [svg|] eqn:Hs;
      [|unfold MapView.renderEffect; rewrite Hw, Hs, Hs; auto].
    destruct (MapView.containerRef st) as [c|] eqn:Hc;
      [|unfold MapView.renderEffect; rewrite Hw, Hs, Hc, Hs, Hc; auto].
    rewrite (renderEffect_runs p st world svg c Hw Hs Hc).
    intros _. simpl. split; [reflexivity|]. exists c. repeat split.
  - unfold MapView.zoomed.
    destruct (MapView.svgRef st) as [[w h [g|] z r]|] eqn:Hs; simpl;
      rewrite ?Hs; auto.
  - unfold MapView.resized. simpl.
    destruct (MapView.svgRef st) as [[w h [g|] z r]|]; auto.
    intros [Hl (c0 & Hc & _)]. rewrite Hl, Hc. simpl.
    split; [reflexivity|]. exists c. repeat split.
Qed.

(** X14: in every state the map view can reach, once a scene is drawn the
    [width] and [height] attributes of the [svg] are the client size of the
    container, also after window resizes. *)
Theorem svg_size_follows_container
  (events : list MapView.Event) (rect : Q * Q) (c : MapView.Container)
  (svg : MapView.SvgElement) (g : MapView.Group) :
  MapView.svgRef (MapView.run events (MapView.mounted rect c)) = Some svg ->
  MapView.svg_content svg = Some g ->
  MapView.svg_width svg
  = MapView.clientWidth <$> MapView.containerRef (MapView.run events (MapView.mounted rect c))
  /\ MapView.svg_height svg
     = MapView.clientHeight <$> MapView.containerRef (MapView.run events (MapView.mounted rect c))
  /\ MapView.containerRef (MapView.run events (MapView.mounted rect c)) <> None.
Proof.
  assert (H : MapView.size_in_sync (MapView.run events (MapView.mounted rect c))).
  { apply run_preserves; [exact step_size_in_sync | exact I]. }
  revert H. generalize (MapView.run events (MapView.mounted rect c)). intros st.
  unfold MapView.size_in_sync. intros H Hs Hg. rewrite Hs in H.
  destruct svg as [w h content z r]. simpl in Hg. subst content.
  destruct H as [_ (c' & -> & -> & ->)]. simpl. repeat split. discriminate.
Qed.

Lemma svg_size_follows_container_witness :
  Some 800%N
  = MapView.clientWidth <$>
      MapView.containerRef
        (MapView.run
           [ MapView.DataLoaded [] [];
             MapView.Render (Session.props_of App.initial);
             MapView.Resized (MapView.mkContainer 800 450) (800%Q, 450%Q) ]
           (MapView.mounted (640%Q, 360%Q) (MapView.mkContainer 640 360))).
Proof.
  apply (svg_size_follows_container
           [ MapView.DataLoaded [] [];
             MapView.Render (Session.props_of App.initial);
             MapView.Resized (MapView.mkContainer 800 450) (800%Q, 450%Q) ]
           (640%Q, 360%Q) (MapView.mkContainer 640 360) _ _ eq_refl eq_refl).
Defined.

End Scene.

(** * Further properties of the data load and the tooltip *)

Section Names.










(** Two territories the atlas gives no id share the key "undefined": the
    tooltip of the first shows the name of the second. *)
Example tooltip_of_territories_without_id :
  MapView.tooltip_text
    (MapView.load_mapping []
       [ Types.mkFeature "Feature" None "Kosovo" [];
         Types.mkFeature "Feature" None "Somaliland" [] ])
    (Types.mkFeature "Feature" None "Kosovo" [])
  = "Somaliland".
Proof. reflexivity. Qed.

(** X18: the data load keeps the features in the order of the atlas and drops
    those that denote Antarctica and no other. *)
Theorem load_keeps_order_and_rest (features : list Types.MapFeature) :
  MapView.load_features features `sublist_of` features
  /\ (forall f, In f (MapView.load_features features)
                <-> In f features /\ ~ Types.denotes_antarctica f).
Proof.
  split; [|intros f; apply load_features_spec].
  unfold MapView.load_features.
  induction features as [|f fs IH]; simpl; [constructor|].
  destruct (Types.not_antarctica f); [apply sublist_skip | apply sublist_cons];
    exact IH.
Qed.

End Names.

(** * Further properties of the export *)

Section ExportFile.

Lemma string_length_app (a b : string) :
  String.length (a +:+ b) = String.length a + String.length b.
Proof.
  induction a as [|c a IH]; simpl; [reflexivity|]. rewrite IH. reflexivity.
Qed.

Lemma string_app_inv_tail (a b s : string) : a +:+ s = b +:+ s -> a = b.
Proof.
  revert b. induction a as [|c a IH]; intros [|d b] H; simpl in H.
  - reflexivity.
  - apply (f_equal String.length) in H.
    rewrite !string_length_app in H. simpl in H. lia.
  - apply (f_equal String.length) in H.
    rewrite !string_length_app in H. simpl in H. lia.
  - injection H as -> H. f_equal. apply IH, H.
Qed.

(** X19: the export yields a file exactly when the [svg] element is mounted and
    the canvas gives a 2d context; geometry, selection and markers play no
    part. *)
Theorem export_yields_file_iff (has_ctx : bool) (now : Z) (st : MapView.State) :
  MapView.exportToPng has_ctx st ≫= MapView.img_onload now = None
  <-> MapView.svgRef st = None \/ has_ctx = false.
Proof.
  unfold MapView.exportToPng, MapView.img_onload.
  destruct (MapView.svgRef st) as [svg|]; destruct has_ctx; simpl;
    intuition congruence.
Qed.

(** X20: exports made at different times are offered under different file
    names. *)
Theorem export_names_differ (now1 now2 : Z) (job1 job2 : MapView.ExportJob)
  (file1 file2 : MapView.Download) :
  MapView.img_onload now1 job1 = Some file1 ->
  MapView.img_onload now2 job2 = Some file2 ->
  now1 <> now2 ->
  MapView.download file1 <> MapView.download file2.
Proof.
  unfold MapView.img_onload. intros H1 H2 Hne E. apply Hne.
  destruct (MapView.ctx job1); [|discriminate].
  destruct (MapView.ctx job2); [|discriminate].
  injection H1 as <-. injection H2 as <-. simpl in E.
  apply (inj (String.app "world-travel-map-")) in E.
  apply string_app_inv_tail in E. apply (inj pretty) in E. exact E.
Qed.

Lemma export_names_differ_witness :
  "world-travel-map-1.png" <> "world-travel-map-2.png".
Proof.
  exact (export_names_differ 1 2
           (MapView.mkJob (MapView.mkSvg None None None None (0%Q, 0%Q)) 0 0 true)
           (MapView.mkJob (MapView.mkSvg None None None None (0%Q, 0%Q)) 0 0 true)
           _ _ eq_refl eq_refl ltac:(discriminate)).
Defined.

(** X21: for a size of the [svg] element that is not negative and whose
    double is below 2^32, a side of the canvas is that double with the
    fraction dropped where this is at most 2147483647, and the default of
    the side (300 for the width, 150 for the height) where it is more; below
    2^31 the side is thus short of twice the size by less than one pixel. *)
Theorem canvas_size_is_floor (default : Z) (q : Q) :
  (0 <= q)%Q -> (q * MapView.scale < 4294967296)%Q ->
  MapView.set_canvas_size default (q * MapView.scale)
  = (if (Qfloor (q * MapView.scale) <=? 2147483647)%Z
     then Qfloor (q * MapView.scale) else default)
  /\ ((q * MapView.scale < 2147483648)%Q ->
      (inject_Z (MapView.set_canvas_size default (q * MapView.scale))
       <= q * MapView.scale)%Q
      /\ (q * MapView.scale
          < inject_Z (MapView.set_canvas_size default (q * MapView.scale) + 1))%Q).
Proof.
  intros H0 Hlt.
  assert (Hx : (0 <= q * MapView.scale)%Q)
    by (apply Qmult_le_0_compat; [exact H0 | discriminate]).
  split.
  - unfold MapView.set_canvas_size.
    rewrite (to_unsigned_long_floor _ Hx Hlt). reflexivity.
  - intros Hsmall. rewrite (set_canvas_size_floor default _ Hx Hsmall).
    split; [apply Qfloor_le | apply Qlt_floor].
Qed.

Lemma canvas_size_is_floor_witness :
  MapView.set_canvas_size 150 ((9009 # 16) * MapView.scale) = 1126%Z.
Proof.
  apply (canvas_size_is_floor 150 (9009 # 16)); [discriminate | reflexivity].
Defined.

End ExportFile.

(** * Further properties of the country list *)

Section CountryList.

Variable toLowerCase : string -> string.
Variable sortKeys : list string -> list string.
Hypothesis sortKeys_permutes : forall l, sortKeys l ≡ₚ l.

Lemma add_country_lookup (search : string)
  (groups : gmap string (list CountrySelector.Country))
  (c : CountrySelector.Country) (k : string) :
  CountrySelector.add_country toLowerCase search groups c !! k
  = if String.eqb (CountrySelector.continent c) k
    then Some (default [] (groups !! k) ++ (if CountrySelector.matches toLowerCase search c then [c] else []))
    else groups !! k.
Proof.
  unfold CountrySelector.add_country.
  destruct (String.eqb_spec (CountrySelector.continent c) k) as [<-|Hne].
  - destruct (groups !! CountrySelector.continent c) as [l|] eqn:Hl;
      destruct (CountrySelector.matches toLowerCase search c); simpl;
      rewrite ?lookup_insert_eq, ?Hl, ?app_nil_r; reflexivity.
  - destruct (groups !! CountrySelector.continent c) as [l|] eqn:Hl;
      destruct (CountrySelector.matches toLowerCase search c); simpl;
      rewrite ?lookup_insert_ne by exact Hne; reflexivity.
Qed.

Lemma foldl_add_country_lookup (search : string)
  (countries : list CountrySelector.Country)
  (groups : gmap string (list CountrySelector.Country)) (k : string) :
  foldl (CountrySelector.add_country toLowerCase search) groups countries !! k
  = match groups !! k with
    | Some l => Some (l ++ CountrySelector.shown_in toLowerCase k search countries)
    | None =>
        if existsb (fun c => String.eqb (CountrySelector.continent c) k) countries
        then Some (CountrySelector.shown_in toLowerCase k search countries) else None
    end.
Proof.
  revert groups. induction countries as [|c cs IH]; intros groups; simpl.
  - destruct (groups !! k); [rewrite app_nil_r|]; reflexivity.
  - rewrite IH, add_country_lookup. unfold CountrySelector.shown_in. simpl.
    destruct (String.eqb (CountrySelector.continent c) k); simpl.
    + destruct (groups !! k) as [l|]; simpl;
        destruct (CountrySelector.matches toLowerCase search c); simpl;
        rewrite <- ?app_assoc, ?app_nil_r; reflexivity.
    + reflexivity.
Qed.

Lemma grouped_lookup (countries : list CountrySelector.Country) (search k : string) :
  CountrySelector.groupedCountries toLowerCase countries search !! k
  = if existsb (fun c => String.eqb (CountrySelector.continent c) k) countries
    then Some (CountrySelector.shown_in toLowerCase k search countries)
    else None.
Proof.
  unfold CountrySelector.groupedCountries.
  rewrite foldl_add_country_lookup, lookup_empty. reflexivity.
Qed.


Lemma shown_in_spec (k search : string) (countries : list CountrySelector.Country)
  (c : CountrySelector.Country) :
  In c (CountrySelector.shown_in toLowerCase k search countries)
  <-> In c countries /\ CountrySelector.continent c = k
      /\ CountrySelector.matches toLowerCase search c = true.
Proof.
  unfold CountrySelector.shown_in.
  rewrite filter_In, andb_true_iff, String.eqb_eq. tauto.
Qed.

Lemma has_continent_spec (countries : list CountrySelector.Country) (k : string) :
  existsb (fun c => String.eqb (CountrySelector.continent c) k) countries = true
  <-> exists c, In c countries /\ CountrySelector.continent c = k.
Proof.
  rewrite existsb_exists. split; intros (c & Hc & E); exists c; split; trivial;
    apply String.eqb_eq; exact E.
Qed.

Lemma group_or_empty (countries : list CountrySelector.Country) (search k : string) :
  default [] (CountrySelector.groupedCountries toLowerCase countries search !! k)
  = CountrySelector.shown_in toLowerCase k search countries.
Proof.
  rewrite grouped_lookup.
  destruct (existsb _ countries) eqn:E; [reflexivity|]. simpl.
  destruct (CountrySelector.shown_in toLowerCase k search countries) as [|c l] eqn:Hs;
    [reflexivity|].
  assert (Hc : In c (CountrySelector.shown_in toLowerCase k search countries))
    by (rewrite Hs; left; reflexivity).
  apply shown_in_spec in Hc. destruct Hc as (Hin & Hk & _).
  assert (Ht : existsb (fun c => String.eqb (CountrySelector.continent c) k) countries
               = true) by (apply has_continent_spec; eauto).
  congruence.
Qed.

Lemma continents_spec (countries : list CountrySelector.Country) (search k : string) :
  In k (CountrySelector.continents toLowerCase sortKeys countries search)
  <-> exists c, In c countries /\ CountrySelector.continent c = k.
Proof.
  unfold CountrySelector.continents.
  rewrite <- list_elem_of_In, sortKeys_permutes, elem_of_elements, elem_of_dom.
  rewrite grouped_lookup, <- has_continent_spec.
  destruct (existsb _ countries); split; intros H;
    try reflexivity; try discriminate; eauto.
  destruct H as [? [=]].
Qed.


Lemma block_of_spec (countries : list CountrySelector.Country) (search : string)
  (expanded selected : gset string) (k : string) :
  CountrySelector.block_of toLowerCase countries search expanded selected k
  = match CountrySelector.shown_in toLowerCase k search countries with
    | [] => None
    | cs =>
        Some {| CountrySelector.block_key := k;
                CountrySelector.block_label :=
                  Types.or_else (CountrySelector.CONTINENT_ZH k) k;
                CountrySelector.block_count := length cs;
                CountrySelector.block_expanded := bool_decide (k ∈ expanded);
                CountrySelector.block_rows :=
                  if bool_decide (k ∈ expanded)
                  then map (fun country =>
                              (country,
                               bool_decide (CountrySelector.id country ∈ selected)))
                           cs
                  else [] |}
    end.
Proof.
  unfold CountrySelector.block_of. rewrite group_or_empty.
  destruct (CountrySelector.shown_in toLowerCase k search countries); reflexivity.
Qed.

Lemma blocks_spec (countries : list CountrySelector.Country) (search : string)
  (expanded selected : gset string) (b : CountrySelector.Block) :
  In b (CountrySelector.blocks toLowerCase sortKeys countries search expanded selected)
  <-> CountrySelector.shown_in toLowerCase (CountrySelector.block_key b) search countries
      <> []
      /\ CountrySelector.block_of toLowerCase countries search expanded selected
           (CountrySelector.block_key b)
         = Some b.
Proof.
  unfold CountrySelector.blocks.
  rewrite <- list_elem_of_In, list_elem_of_omap. split.
  - intros (k & _ & Hb). pose proof Hb as Hb'. rewrite block_of_spec in Hb'.
    destruct (CountrySelector.shown_in toLowerCase k search countries) eqn:E;
      [discriminate|].
    injection Hb' as <-. simpl. rewrite E. split; [discriminate | exact Hb].
  - intros [Hne Hb]. exists (CountrySelector.block_key b). split; [|exact Hb].
    apply list_elem_of_In, continents_spec.
    destruct (CountrySelector.shown_in toLowerCase (CountrySelector.block_key b)
                search countries) as [|c l] eqn:E; [contradiction|].
    assert (Hc : In c (CountrySelector.shown_in toLowerCase
                         (CountrySelector.block_key b) search countries))
      by (rewrite E; left; reflexivity).
    apply shown_in_spec in Hc. exists c. tauto.
Qed.


(** X25: the number on the badge of a continent block is the number of that
    continent's countries that pass the search, and is never zero; an open
    block lists exactly those countries, in list order, and a closed block
    lists none. *)
Theorem block_counts_matches (countries : list CountrySelector.Country)
  (search : string) (expanded selected : gset string) (b : CountrySelector.Block) :
  In b (CountrySelector.blocks toLowerCase sortKeys countries search expanded selected) ->
  CountrySelector.block_count b
  = length (CountrySelector.shown_in toLowerCase (CountrySelector.block_key b)
              search countries)
  /\ 0 < CountrySelector.block_count b
  /\ map fst (CountrySelector.block_rows b)
     = if CountrySelector.block_expanded b
       then CountrySelector.shown_in toLowerCase (CountrySelector.block_key b)
              search countries
       else [].
Proof.
  intros Hb. apply blocks_spec in Hb. destruct Hb as [Hne Hb].
  remember (CountrySelector.block_key b) as k eqn:Hk.
  rewrite block_of_spec in Hb.
  destruct (CountrySelector.shown_in toLowerCase k search countries)
    as [|c l] eqn:E; [contradiction|].
  injection Hb as Hb. subst b. simpl.
  split; [reflexivity|]. split; [lia|].
  destruct (bool_decide (k ∈ expanded)); [|reflexivity].
  simpl. f_equal. rewrite map_map. simpl. apply map_id.
Qed.


End CountryList.

Section CountryListExamples.



Lemma block_counts_matches_witness :
  0 < CountrySelector.block_count
        {| CountrySelector.block_key := "Europe";
           CountrySelector.block_label := "欧洲";
           CountrySelector.block_count := 1;
           CountrySelector.block_expanded := false;
           CountrySelector.block_rows := [] |}.
Proof.
  apply (block_counts_matches (fun s => s) (fun l => l) (fun l => reflexivity l)
           [CountrySelector.mkCountry "250" "法国" "Europe"] EmptyString
           CountrySelector.initial_expanded ∅).
  vm_compute. left. reflexivity.
Defined.


Example asia_block_is_open_at_first :
  CountrySelector.blocks (fun s => s) (merge_sort String.le)
    [ CountrySelector.mkCountry "250" "法国" "Europe";
      CountrySelector.mkCountry "156" "中国" "Asia" ] EmptyString
    CountrySelector.initial_expanded {[ "156" ]}
  = [ {| CountrySelector.block_key := "Asia";
         CountrySelector.block_label := "亚洲";
         CountrySelector.block_count := 1;
         CountrySelector.block_expanded := true;
         CountrySelector.block_rows :=
           [ (CountrySelector.mkCountry "156" "中国" "Asia", true) ] |};
      {| CountrySelector.block_key := "Europe";
         CountrySelector.block_label := "欧洲";
         CountrySelector.block_count := 1;
         CountrySelector.block_expanded := false;
         CountrySelector.block_rows := [] |} ].
Proof. vm_compute. reflexivity. Qed.

End CountryListExamples.

Section SelectorEntries.

Variable sort : list CountrySelector.Country -> list CountrySelector.Country.
Hypothesis sort_permutes : forall l, sort l ≡ₚ l.

(** X27: the country list and the map built from the same atlas offer the same
    ids: an id can be toggled from the list exactly when the map draws a
    feature with that id. *)
Theorem selector_and_map_offer_same_ids
  (atlas : list Types.MapFeature) (metaData : list Types.Meta) (k : string) :
  (exists c, In c (CountrySelector.loaded_list sort atlas metaData)
             /\ CountrySelector.id c = k)
  <-> (exists f, In f (MapView.load_features atlas) /\ Types.String_id f = k).
Proof.
  split.
  - intros (c & Hc & <-). apply (loaded_list_spec sort sort_permutes) in Hc.
    destruct Hc as (g & Hg & Hna & ->). exists g.
    split; [apply load_features_spec; tauto | reflexivity].
  - intros (f & Hf & <-). apply load_features_spec in Hf.
    exists (CountrySelector.entry metaData f).
    split; [|reflexivity].
    apply (loaded_list_spec sort sort_permutes). exists f. tauto.
Qed.

End SelectorEntries.

Section EntryNames.

Lemma selector_and_map_offer_same_ids_witness :
  exists c,
    In c (CountrySelector.loaded_list (fun l => l)
            [ Types.mkFeature "Feature" (Some "250") "France" [] ] [])
    /\ CountrySelector.id c = "250".
Proof.
  apply (selector_and_map_offer_same_ids (fun l => l) (fun l => reflexivity l)).
  exists (Types.mkFeature "Feature" (Some "250") "France" []).
  split; [left|]; reflexivity.
Defined.

Lemma or_else_nonempty (a : option string) (b : string) :
  b <> EmptyString -> Types.or_else a b <> EmptyString.
Proof.
  intros Hb. destruct a as [[|c a]|]; simpl; try exact Hb. discriminate.
Qed.

(** X28: every entry of the country list has a name and a continent to show:
    the name falls back to the atlas name, which is kept when it is not
    empty, and the continent falls back to "Other". *)
Theorem entry_always_named (metaData : list Types.Meta) (g : Types.MapFeature) :
  Types.name g <> EmptyString ->
  CountrySelector.name (CountrySelector.entry metaData g) <> EmptyString
  /\ CountrySelector.continent (CountrySelector.entry metaData g) <> EmptyString.
Proof.
  intros Hn. unfold CountrySelector.entry. simpl. split.
  - apply or_else_nonempty, or_else_nonempty, Hn.
  - apply or_else_nonempty. discriminate.
Qed.

Lemma entry_always_named_witness :
  CountrySelector.name
    (CountrySelector.entry
       [ Types.mkMeta "France" "French Republic" (Some EmptyString) None None ]
       (Types.mkFeature "Feature" (Some "250") "France" []))
  <> EmptyString.
Proof.
  apply (entry_always_named
           [ Types.mkMeta "France" "French Republic" (Some EmptyString) None None ]
           (Types.mkFeature "Feature" (Some "250") "France" [])).
  discriminate.
Defined.

(** X29: opening or closing a continent flips that continent and leaves every
    other continent as it was; doing it twice gives back the set of open
    continents. *)
Theorem toggle_continent_flips_only (k : string) (s : gset string) :
  (k ∈ CountrySelector.toggleContinent k s <-> k ∉ s)
  /\ (forall x, x <> k -> (x ∈ CountrySelector.toggleContinent k s <-> x ∈ s))
  /\ CountrySelector.toggleContinent k (CountrySelector.toggleContinent k s) = s.
Proof.
  assert (H : forall x t, x ∈ CountrySelector.toggleContinent k t
                          <-> (x ∈ t /\ x <> k) \/ (x = k /\ k ∉ t))
    by (intros x t; exact (toggle_elem k x t)).
  split; [|split].
  - rewrite H. intuition congruence.
  - intros x Hx. rewrite H. intuition congruence.
  - apply set_eq. intros x. rewrite !H.
    destruct (decide (x = k)) as [->|Hne]; [|intuition congruence].
    destruct (decide (k ∈ s)); intuition congruence.
Qed.

End EntryNames.

Section ClearAll.

(** X30: after the clear-all button, a map view that has its data is redrawn
    with every country in the neutral grey and with no city label. *)
Theorem clear_all_blanks_map (s : Session.State)
  (world : list Types.MapFeature) (svg : MapView.SvgElement)
  (c : MapView.Container) :
  MapView.worldData (Session.view s) = Some world ->
  MapView.svgRef (Session.view s) = Some svg ->
  MapView.containerRef (Session.view s) = Some c ->
  MapView.drawn_paths (Session.view (Session.update App.clearAll s))
  = map (fun f => {| MapView.country_datum := f;
                     MapView.country_fill := "#e2e8f0" |}) world
  /\ MapView.drawn_cities (Session.view (Session.update App.clearAll s)) = [].
Proof.
  intros Hw Hs Hc. unfold Session.update, Session.rerender. simpl.
  rewrite (renderEffect_runs _ _ world svg c Hw Hs Hc).
  unfold MapView.drawn_paths, MapView.drawn_cities. simpl.
  split; [|reflexivity]. apply map_ext. intros f.
  unfold MapView.country_path. simpl. reflexivity.
Qed.

Lemma clear_all_blanks_map_witness :
  MapView.drawn_paths
    (Session.view
       (Session.update App.clearAll
          (Session.mkSession (App.handleToggleCountry "156" App.initial)
             (MapView.dataLoaded [Types.mkFeature "Feature" (Some "156") "China" []] []
                (MapView.mounted (640%Q, 360%Q) (MapView.mkContainer 640 360))))))
  = [ {| MapView.country_datum := Types.mkFeature "Feature" (Some "156") "China" [];
         MapView.country_fill := "#e2e8f0" |} ].
Proof.
  apply (clear_all_blanks_map
           (Session.mkSession (App.handleToggleCountry "156" App.initial)
              (MapView.dataLoaded [Types.mkFeature "Feature" (Some "156") "China" []] []
                 (MapView.mounted (640%Q, 360%Q) (MapView.mkContainer 640 360))))
           _ _ _ eq_refl eq_refl eq_refl).
Defined.

End ClearAll.
